(** * TaskFlow: the Task Crusher decomposition-and-tracking subsystem

    The screen logic of the Task Crusher feature (the handlers [analyzeTask],
    [toggleSubtaskSelection] and [createTaskGroup] of the [TaskCrusher]
    component) is embedded from the TypeScript source.  The REST backend the
    screen talks to is not part of the sources at hand; its two operations
    (materialization and subtask completion) are modelled from the
    specification in [Module Server]. *)

From Stdlib Require Import ZArith NArith QArith List String Ascii Lia DecimalString Sorted.
From Stdlib Require Import DecimalPos DecimalZ.
From stdpp Require Import base option list gmap.

Local Open Scope Z_scope.

(** ** JavaScript strings

    A JavaScript string is a sequence of UTF-16 code units. *)

Definition jsstring := list N.

(** ASCII literals of the source, as code units. *)
Definition js (s : string) : jsstring :=
  List.map N_of_ascii (list_ascii_of_string s).

(** WhiteSpace and LineTerminator code points of ECMAScript, the characters
    [String.prototype.trim] strips. *)
Definition isWhiteSpace (c : N) : bool :=
  ((9 <=? c) && (c <=? 13) || (c =? 32) || (c =? 160) || (c =? 5760)
   || (8192 <=? c) && (c <=? 8202) || (c =? 8232) || (c =? 8233)
   || (c =? 8239) || (c =? 8287) || (c =? 12288) || (c =? 65279))%N.

Fixpoint trimStart (s : jsstring) : jsstring :=
  match s with
  | [] => []
  | c :: rest => if isWhiteSpace c then trimStart rest else s
  end.

Definition trimEnd (s : jsstring) : jsstring := rev (trimStart (rev s)).

Definition trim (s : jsstring) : jsstring := trimEnd (trimStart s).

(** Truthiness of a string: only the empty string is falsy. *)
Definition truthy (s : jsstring) : bool :=
  match s with [] => false | _ => true end.

(** A string is whitespace-only when each of its code units is white space
    (the empty string included). *)
Definition whitespace_only (s : jsstring) : Prop :=
  Forall (fun c => isWhiteSpace c = true) s.

(** Number to string, for template literals over integers: the decimal
    digits, which is what a number that is an integer below [10^21] in
    size prints as. *)
Definition numberToString (n : Z) : jsstring :=
  js (NilZero.string_of_int (Z.to_int n)).

(** [Number.MAX_SAFE_INTEGER], [2^53 - 1]: up to it in size every integer
    is a number (a double). *)
Definition MAX_SAFE_INTEGER : Z := 9007199254740991.

(** ** The screen ([TaskCrusher] component) *)

Module Client.

(** *** Interfaces of the screen *)

(** [interface SubTaskSuggestion]. *)
Record SubTaskSuggestion := {
  title : jsstring;
  description : jsstring;
  estimated_duration : Z;
  priority : Z;
  order : Z;
  dependencies : list jsstring;
  selected : bool
}.

(** A suggestion as it arrives from the service ([subtask: any]): the
    [selected] property may be absent or carry any value. *)
Record WireSubtask := {
  w_title : jsstring;
  w_description : jsstring;
  w_estimated_duration : Z;
  w_priority : Z;
  w_order : Z;
  w_dependencies : list jsstring;
  w_selected : option bool
}.

(** [interface TaskCrusherResponse], over the representation [A] of the
    elements of [suggested_subtasks]: wire values on arrival, object
    references in the component state, plain values in a JSON body. *)
Record TaskCrusherResponse (A : Type) := {
  main_task : jsstring;
  suggested_subtasks : list A;
  total_estimated_duration : Z;
  completion_strategy : jsstring;
  ai_confidence : Q
}.
Arguments main_task {A} _.
Arguments suggested_subtasks {A} _.
Arguments total_estimated_duration {A} _.
Arguments completion_strategy {A} _.
Arguments ai_confidence {A} _.

(** [{ ...r, suggested_subtasks: l }] *)
Definition with_subtasks {A B} (r : TaskCrusherResponse A) (l : list B)
  : TaskCrusherResponse B :=
  {| main_task := main_task r;
     suggested_subtasks := l;
     total_estimated_duration := total_estimated_duration r;
     completion_strategy := completion_strategy r;
     ai_confidence := ai_confidence r |}.

(** [interface TaskGroup], as the screen receives it. *)
Record TaskGroup := {
  id : jsstring;
  main_task_title : jsstring;
  main_task_description : jsstring;
  category : jsstring;
  total_subtasks : Z;
  completed_subtasks : Z;
  progress_percentage : Q;
  created_at : jsstring;
  is_active : bool
}.

Inductive Difficulty := easy | medium | hard | expert.
Inductive Tab := crusher | groups.

(** *** Component state

    The [useState] cells of the component, and the store of the suggestion
    objects the [suggested_subtasks] array of [crusherResponse] refers to:
    [toggleSubtaskSelection] copies the array but writes to the object the
    copy shares with the original. *)

Definition loc := nat.

Record State := {
  mainTask : jsstring;
  formDescription : jsstring;
  difficulty : Difficulty;
  estimatedDuration : jsstring;
  isAnalyzing : bool;
  crusherResponse : option (TaskCrusherResponse loc);
  taskGroups : list TaskGroup;
  showAnalysisModal : bool;
  refreshing : bool;
  loading : bool;
  activeTab : Tab;
  heap : gmap loc SubTaskSuggestion
}.

Definition initialState : State :=
  {| mainTask := []; formDescription := []; difficulty := medium;
     estimatedDuration := []; isAnalyzing := false; crusherResponse := None;
     taskGroups := []; showAnalysisModal := false; refreshing := false;
     loading := true; activeTab := crusher; heap := ∅ |}.

Definition setIsAnalyzing (b : bool) (st : State) : State :=
  {| mainTask := mainTask st; formDescription := formDescription st;
     difficulty := difficulty st; estimatedDuration := estimatedDuration st;
     isAnalyzing := b; crusherResponse := crusherResponse st;
     taskGroups := taskGroups st; showAnalysisModal := showAnalysisModal st;
     refreshing := refreshing st; loading := loading st;
     activeTab := activeTab st; heap := heap st |}.

Definition setShowAnalysisModal (b : bool) (st : State) : State :=
  {| mainTask := mainTask st; formDescription := formDescription st;
     difficulty := difficulty st; estimatedDuration := estimatedDuration st;
     isAnalyzing := isAnalyzing st; crusherResponse := crusherResponse st;
     taskGroups := taskGroups st; showAnalysisModal := b;
     refreshing := refreshing st; loading := loading st;
     activeTab := activeTab st; heap := heap st |}.

(** [setCrusherResponse], together with the object store the new value
    lives in. *)
Definition setCrusherResponse (r : option (TaskCrusherResponse loc))
    (h : gmap loc SubTaskSuggestion) (st : State) : State :=
  {| mainTask := mainTask st; formDescription := formDescription st;
     difficulty := difficulty st; estimatedDuration := estimatedDuration st;
     isAnalyzing := isAnalyzing st; crusherResponse := r;
     taskGroups := taskGroups st; showAnalysisModal := showAnalysisModal st;
     refreshing := refreshing st; loading := loading st;
     activeTab := activeTab st; heap := h |}.

Definition setTaskGroups (g : list TaskGroup) (st : State) : State :=
  {| mainTask := mainTask st; formDescription := formDescription st;
     difficulty := difficulty st; estimatedDuration := estimatedDuration st;
     isAnalyzing := isAnalyzing st; crusherResponse := crusherResponse st;
     taskGroups := g; showAnalysisModal := showAnalysisModal st;
     refreshing := refreshing st; loading := loading st;
     activeTab := activeTab st; heap := heap st |}.

Definition setMainTask (s : jsstring) (st : State) : State :=
  {| mainTask := s; formDescription := formDescription st;
     difficulty := difficulty st; estimatedDuration := estimatedDuration st;
     isAnalyzing := isAnalyzing st; crusherResponse := crusherResponse st;
     taskGroups := taskGroups st; showAnalysisModal := showAnalysisModal st;
     refreshing := refreshing st; loading := loading st;
     activeTab := activeTab st; heap := heap st |}.

Definition setDescription (s : jsstring) (st : State) : State :=
  {| mainTask := mainTask st; formDescription := s;
     difficulty := difficulty st; estimatedDuration := estimatedDuration st;
     isAnalyzing := isAnalyzing st; crusherResponse := crusherResponse st;
     taskGroups := taskGroups st; showAnalysisModal := showAnalysisModal st;
     refreshing := refreshing st; loading := loading st;
     activeTab := activeTab st; heap := heap st |}.

Definition setActiveTab (t : Tab) (st : State) : State :=
  {| mainTask := mainTask st; formDescription := formDescription st;
     difficulty := difficulty st; estimatedDuration := estimatedDuration st;
     isAnalyzing := isAnalyzing st; crusherResponse := crusherResponse st;
     taskGroups := taskGroups st; showAnalysisModal := showAnalysisModal st;
     refreshing := refreshing st; loading := loading st;
     activeTab := t; heap := heap st |}.

(** *** Effects and the network *)

Inductive Callback := ViewTasks.

Record AnalyzeRequest := {
  req_main_task : jsstring;
  req_description : jsstring;
  req_category : jsstring;
  req_estimated_duration : option Z;
  req_difficulty_level : Difficulty
}.

Inductive Body :=
| NoBody
| AnalyzeBody (b : AnalyzeRequest)
| CreateGroupBody (b : TaskCrusherResponse SubTaskSuggestion).

Record Request := {
  url : jsstring;
  method : jsstring;
  body : Body
}.

Inductive Effect :=
| Fetch (r : Request)
| Alert (heading message : jsstring) (buttons : list (jsstring * Callback))
| HapticSuccess
| ConsoleError (message : jsstring).

(** What [await fetch(...)] followed by [await response.json()] can come
    to: the promise rejects, or a response arrives with its [ok] flag and a
    body that either has the expected shape or makes the handler throw. *)
Inductive FetchOutcome (A : Type) :=
| NetworkError
| HttpResponse (ok : bool) (json : option A).
Arguments NetworkError {A}.
Arguments HttpResponse {A} _ _.

(** How a handler ends: it returns, or an exception escapes it. *)
Inductive Completion := Returned | TypeError.

Definition Result : Type := State * list Effect * Completion.

(** A handler either finishes without touching the network, or issues one
    request and continues with its outcome. *)
Inductive Async (A : Type) :=
| Finished (r : Result)
| Fetching (req : Request) (k : FetchOutcome A -> Result).
Arguments Finished {A} _.
Arguments Fetching {A} _ _.

Definition run {A} (a : Async A) (net : FetchOutcome A) : Result :=
  match a with
  | Finished r => r
  | Fetching req k =>
      let '(st, fx, c) := k net in (st, Fetch req :: fx, c)
  end.

(** The requests a handler run has issued. *)
Definition requests (r : Result) : list Request :=
  omap (fun e => match e with Fetch q => Some q | _ => None end) (r.1.2).

Definition POST : jsstring := js "POST".
Definition GET : jsstring := js "GET".

(** [map((subtask: any) => ({ ...subtask, selected: true }))] *)
Definition enhance (w : WireSubtask) : SubTaskSuggestion :=
  {| title := w_title w; description := w_description w;
     estimated_duration := w_estimated_duration w; priority := w_priority w;
     order := w_order w; dependencies := w_dependencies w;
     selected := true |}.

(** Storing freshly created objects: each gets a reference not in use. *)
Fixpoint alloc (h : gmap loc SubTaskSuggestion) (objs : list SubTaskSuggestion)
  : gmap loc SubTaskSuggestion * list loc :=
  match objs with
  | [] => (h, [])
  | o :: rest =>
      let l := fresh (dom h) in
      let '(h', ls) := alloc (<[l := o]> h) rest in
      (h', l :: ls)
  end.

(** Reading the objects an array of references holds. *)
Definition deref (h : gmap loc SubTaskSuggestion) (ls : list loc)
  : option (list SubTaskSuggestion) :=
  mapM (fun l => h !! l) ls.

(** [array[index]] for an integral index: [undefined] below zero and past
    the end (as for a number that is not integral). *)
Definition at_index {A} (l : list A) (index : Z) : option A :=
  if index <? 0 then None else l !! Z.to_nat index.

(** The object after [o.selected = !o.selected]. *)
Definition flip (o : SubTaskSuggestion) : SubTaskSuggestion :=
  {| title := title o; description := description o;
     estimated_duration := estimated_duration o; priority := priority o;
     order := order o; dependencies := dependencies o;
     selected := negb (selected o) |}.

(** What the screen reads of the create-group answer. *)
Record CreateGroupResponse := {
  subtasks_created : Z
}.

Section Handlers.

(** [process.env.EXPO_PUBLIC_BACKEND_URL || "http://localhost:8001"] *)
Variable BACKEND_URL : jsstring.

(** The host's [parseInt] followed by JSON encoding: [None] stands for
    [NaN], which [JSON.stringify] writes as [null]. *)
Variable parseInt : jsstring -> option Z.

Definition fetchTaskGroups (st : State) : Async (list TaskGroup) :=
  Fetching
    {| url := BACKEND_URL ++ js "/api/task-crusher/groups";
       method := GET; body := NoBody |}
    (fun net =>
       match net with
       | HttpResponse true (Some data) => (setTaskGroups data st, [], Returned)
       | HttpResponse true None | NetworkError =>
           (st, [ConsoleError (js "Error fetching task groups:")], Returned)
       | HttpResponse false _ => (st, [], Returned)
       end).

Definition analyzeTask (st : State) : Async (TaskCrusherResponse WireSubtask) :=
  if negb (truthy (trim (mainTask st))) then
    Finished
      (st, [Alert (js "Missing Information")
                  (js "Please enter a task to analyze") []], Returned)
  else
    Fetching
      {| url := BACKEND_URL ++ js "/api/task-crusher/analyze";
         method := POST;
         body := AnalyzeBody
           {| req_main_task := mainTask st;
              req_description := formDescription st;
              req_category := js "personal";
              req_estimated_duration :=
                if truthy (estimatedDuration st)
                then parseInt (estimatedDuration st) else None;
              req_difficulty_level := difficulty st |} |}
      (fun net =>
         match net with
         | HttpResponse true (Some data) =>
             (* Mark all subtasks as selected by default *)
             let enhancedSubtasks := List.map enhance (suggested_subtasks data) in
             let '(h, refs) := alloc (heap st) enhancedSubtasks in
             (setIsAnalyzing false
                (setShowAnalysisModal true
                   (setCrusherResponse (Some (with_subtasks data refs)) h st)),
              [HapticSuccess], Returned)
         | HttpResponse false _ =>
             (setIsAnalyzing false st,
              [Alert (js "Error")
                     (js "Failed to analyze task. Please try again.") []],
              Returned)
         | HttpResponse true None | NetworkError =>
             (setIsAnalyzing false st,
              [ConsoleError (js "Error analyzing task:");
               Alert (js "Error")
                     (js "Failed to analyze task. Please check your connection.") []],
              Returned)
         end).

Definition toggleSubtaskSelection (index : Z) (st : State) : Result :=
  match crusherResponse st with
  | None => (st, [], Returned)
  | Some r =>
      let updatedSubtasks := suggested_subtasks r in
      match at_index updatedSubtasks index with
      | None => (st, [], TypeError)
      | Some l =>
          match heap st !! l with
          | None => (st, [], TypeError)
          | Some o =>
              (setCrusherResponse
                 (Some (with_subtasks r updatedSubtasks))
                 (<[l := flip o]> (heap st)) st,
               [], Returned)
          end
      end
  end.

Definition createTaskGroup (st : State) : Async CreateGroupResponse :=
  match crusherResponse st with
  | None => Finished (st, [], Returned)
  | Some r =>
      match deref (heap st) (suggested_subtasks r) with
      | None => Finished (st, [], TypeError)
      | Some objs =>
          let selectedSubtasks := List.filter selected objs in
          if (List.length selectedSubtasks =? 0)%nat then
            Finished
              (st, [Alert (js "No Tasks Selected")
                          (js "Please select at least one subtask to create.") []],
               Returned)
          else
            Fetching
              {| url := BACKEND_URL ++ js "/api/task-crusher/create-group";
                 method := POST;
                 body := CreateGroupBody (with_subtasks r selectedSubtasks) |}
              (fun net =>
                 match net with
                 | HttpResponse true (Some data) =>
                     (st,
                      [Alert (js "Tasks Created! " ++ [55356; 57225]%N)
                             (js "Successfully created "
                                ++ numberToString (subtasks_created data)
                                ++ js " subtasks from your complex task.")
                             [(js "View Tasks", ViewTasks)];
                       HapticSuccess], Returned)
                 | HttpResponse false _ =>
                     (st,
                      [Alert (js "Error")
                             (js "Failed to create task group. Please try again.") []],
                      Returned)
                 | HttpResponse true None | NetworkError =>
                     (st,
                      [ConsoleError (js "Error creating task group:");
                       Alert (js "Error")
                             (js "Failed to create tasks. Please check your connection.") []],
                      Returned)
                 end)
      end
  end.

(** The [onPress] of the "View Tasks" button of the success alert: the
    modal closes, the groups tab opens with a refetch under way, and the
    form and the decomposition result are cleared. *)
Definition viewTasks (st : State) : Async (list TaskGroup) :=
  fetchTaskGroups
    (setCrusherResponse None (heap st)
       (setDescription []
          (setMainTask []
             (setActiveTab groups (setShowAnalysisModal false st))))).

Definition press (c : Callback) (st : State) : Async (list TaskGroup) :=
  match c with ViewTasks => viewTasks st end.

End Handlers.

End Client.

(** ** The backend operations

    The REST backend (the [/api/task-crusher/create-group] endpoint and the
    completion of subtasks) is not among the sources; the definitions of this
    module follow the specification's sections 3, 4.3 and 4.4. *)

Module Server.

(** Modelled from the spec: the opaque unique identifiers the store hands
    out for its records (section 6). *)
Definition ident := nat.

(** Modelled from the spec: the timestamps of [createdAt] and
    [completedAt] (section 3). *)
Definition timestamp := nat.

(** Modelled from the spec: the persisted TaskGroup record of section 3
    (the backend's own record declaration is missing). *)
Record TaskGroup := {
  id : ident;
  mainTaskTitle : jsstring;
  mainTaskDescription : jsstring;
  category : jsstring;
  totalSubtasks : Z;
  completedSubtasks : Z;
  progressPercentage : Q;
  createdAt : timestamp;
  isActive : bool
}.

(** Modelled from the spec: the persisted Subtask record of section 3. *)
Record Subtask := {
  subtaskId : ident;
  groupId : ident;
  title : jsstring;
  description : jsstring;
  estimatedDurationMinutes : Z;
  priority : Z;
  order : Z;
  dependencies : list ident;
  completed : bool;
  completedAt : option timestamp
}.

(** Modelled from the spec: the persistence store of section 6, holding the
    records in insertion order and handing out record identifiers. *)
Record Store := {
  groups : list TaskGroup;
  subtasks : list Subtask;
  nextId : ident
}.

(** Modelled from the spec: the store before anything is persisted. *)
Definition emptyStore : Store :=
  {| groups := []; subtasks := []; nextId := 0%nat |}.

(** Modelled from the spec: the error taxonomy of section 7. *)
Inductive Error :=
| ValidationError
| DecompositionServiceError
| EmptySelectionError
| NotFoundError
| PersistenceError.

(** Modelled from the spec: operations return a typed result or an error
    to the caller (section 7). *)
Inductive Outcome (A : Type) :=
| Ok (a : A)
| Failed (e : Error).
Arguments Ok {A} _.
Arguments Failed {A} _.

(** Modelled from the spec: [progressPercentage], derived as
    [100 * completedSubtasks / totalSubtasks] (section 3), over the
    rationals. *)
Definition progressOf (done total : Z) : Q :=
  (inject_Z (100 * done) / inject_Z total)%Q.

(** Modelled from the spec: what materialization returns, the new group's
    identifier and the count of subtasks created (section 4.3). *)
Record Materialized := {
  newGroupId : ident;
  subtasksCreated : nat
}.

(** Modelled from the spec: the records of one multi-record insert, a
    TaskGroup or a Subtask (section 6). *)
Inductive Row :=
| GroupRow (g : TaskGroup)
| SubtaskRow (s : Subtask).

(** Modelled from the spec: one record written to the store. *)
Definition write (r : Row) (db : Store) : Store :=
  match r with
  | GroupRow g =>
      {| groups := groups db ++ [g]; subtasks := subtasks db;
         nextId := nextId db |}
  | SubtaskRow s =>
      {| groups := groups db; subtasks := subtasks db ++ [s];
         nextId := nextId db |}
  end.

(** Modelled from the spec: the writes of a batch, made one row after the
    other, each durable once made. A persistence fault (the partial write
    of section 7) strikes before the write of the row at position [fault]:
    the rows before it are in the store by then, the others are not. The
    flag says whether the whole batch went through. *)
Fixpoint writeRows (fault : option nat) (batch : list Row) (db : Store)
  : Store * bool :=
  match batch with
  | [] => (db, true)
  | r :: rest =>
      match fault with
      | Some O => (db, false)
      | Some (S k) => writeRows (Some k) rest (write r db)
      | None => writeRows None rest (write r db)
      end
  end.

(** Modelled from the spec: undoing a materialization that did not go
    through (sections 4.3 and 7: a failure midway must leave neither an
    orphaned group nor a partial subtask set): the group with identifier
    [gid] and the subtasks owned by it are removed. *)
Definition discard (gid : ident) (db : Store) : Store :=
  {| groups := List.filter (fun g => negb (Nat.eqb (id g) gid)) (groups db);
     subtasks :=
       List.filter (fun s => negb (Nat.eqb (groupId s) gid)) (subtasks db);
     nextId := nextId db |}.

(** Modelled from the spec: dependency resolution of section 4.3. A string
    reference resolves to the identifier of another suggestion of the same
    batch with that title; a reference that resolves to none is dropped. *)
Definition resolve (batch : list (ident * Client.SubTaskSuggestion))
    (self : ident) (refs : list jsstring) : list ident :=
  omap (fun d =>
          fst <$> List.find
            (fun p => bool_decide (Client.title (snd p) = d)
                      && negb (Nat.eqb (fst p) self)) batch)
       refs.

(** Modelled from the spec: the Subtask created for a selected suggestion,
    its [order], [priority], [title], [description] and
    [estimatedDurationMinutes] copied over (section 4.3). *)
Definition subtaskOf (gid : ident)
    (batch : list (ident * Client.SubTaskSuggestion))
    (p : ident * Client.SubTaskSuggestion) : Subtask :=
  {| subtaskId := fst p;
     groupId := gid;
     title := Client.title (snd p);
     description := Client.description (snd p);
     estimatedDurationMinutes := Client.estimated_duration (snd p);
     priority := Client.priority (snd p);
     order := Client.order (snd p);
     dependencies := resolve batch (fst p) (Client.dependencies (snd p));
     completed := false;
     completedAt := None |}.

(** Modelled from the spec: the records of a materialization (section
    4.3): one group, its [totalSubtasks] the number of suggestions to
    materialize and its [completedSubtasks] zero, and one subtask per
    suggestion, in the suggestions' order, with identifiers the store has
    not handed out yet. The spec does not say where [mainTaskDescription]
    and [category] come from: they take the result's strategy text and the
    default category. *)
Definition rowsOf (now : timestamp)
    (r : Client.TaskCrusherResponse Client.SubTaskSuggestion) (db : Store)
  : list Row :=
  let gid := nextId db in
  let n := List.length (Client.suggested_subtasks r) in
  let batch := combine (seq (S gid) n) (Client.suggested_subtasks r) in
  GroupRow
    {| id := gid;
       mainTaskTitle := Client.main_task r;
       mainTaskDescription := Client.completion_strategy r;
       category := js "personal";
       totalSubtasks := Z.of_nat n;
       completedSubtasks := 0;
       progressPercentage := progressOf 0 (Z.of_nat n);
       createdAt := now;
       isActive := true |}
  :: List.map (fun p => SubtaskRow (subtaskOf gid batch p)) batch.

(** Modelled from the spec: the persisting half of the Task Group
    Materializer of section 4.3 (the handler of the create-group endpoint
    is missing). The selection is made by the screen, whose request carries
    the selected suggestions only ([createTaskGroup]); the endpoint
    materializes the suggestions it is sent. None sent is an
    [EmptySelectionError], before any write. Otherwise the rows are
    written one by one; when all are written the identifiers are taken and
    the group's identifier and the count of subtasks are returned; when a
    fault strikes midway, what was written is removed, no identifier is
    taken and the failure is a [PersistenceError]. *)
Definition materializeGroup (fault : option nat) (now : timestamp)
    (r : Client.TaskCrusherResponse Client.SubTaskSuggestion) (db : Store)
  : Store * Outcome Materialized :=
  match Client.suggested_subtasks r with
  | [] => (db, Failed EmptySelectionError)
  | _ :: _ =>
      let gid := nextId db in
      let n := List.length (Client.suggested_subtasks r) in
      match writeRows fault (rowsOf now r db) db with
      | (db', true) =>
          ({| groups := groups db'; subtasks := subtasks db';
              nextId := (S gid + n)%nat |},
           Ok {| newGroupId := gid; subtasksCreated := n |})
      | (db', false) => (discard gid db', Failed PersistenceError)
      end
  end.

(** Modelled from the spec: the effect of a first completion on the owning
    group (section 4.4): the counter goes up by one, the percentage is
    recomputed, and the group stops being active once all its subtasks are
    complete. *)
Definition advance (g : TaskGroup) : TaskGroup :=
  {| id := id g;
     mainTaskTitle := mainTaskTitle g;
     mainTaskDescription := mainTaskDescription g;
     category := category g;
     totalSubtasks := totalSubtasks g;
     completedSubtasks := completedSubtasks g + 1;
     progressPercentage := progressOf (completedSubtasks g + 1) (totalSubtasks g);
     createdAt := createdAt g;
     isActive := negb (completedSubtasks g + 1 =? totalSubtasks g) |}.

(** Modelled from the spec: the effect of a first completion on the subtask
    (section 4.4). *)
Definition markCompleted (now : timestamp) (s : Subtask) : Subtask :=
  {| subtaskId := subtaskId s;
     groupId := groupId s;
     title := title s;
     description := description s;
     estimatedDurationMinutes := estimatedDurationMinutes s;
     priority := priority s;
     order := order s;
     dependencies := dependencies s;
     completed := true;
     completedAt := Some now |}.

(** Modelled from the spec: the Progress Aggregator's [completeSubtask] of
    section 4.4 (no completion code is among the sources), under the
    recommended policy: completing a completed subtask is a no-op. *)
Definition completeSubtask (now : timestamp) (sid : ident) (db : Store)
  : Store * Outcome TaskGroup :=
  match List.find (fun s => Nat.eqb (subtaskId s) sid) (subtasks db) with
  | None => (db, Failed NotFoundError)
  | Some s =>
      match List.find (fun g => Nat.eqb (id g) (groupId s)) (groups db) with
      | None => (db, Failed NotFoundError)
      | Some g =>
          if completed s then (db, Ok g)
          else
            ({| groups :=
                  List.map (fun x => if Nat.eqb (id x) (groupId s)
                                     then advance x else x) (groups db);
                subtasks :=
                  List.map (fun x => if Nat.eqb (subtaskId x) sid
                                     then markCompleted now x else x)
                           (subtasks db);
                nextId := nextId db |},
             Ok (advance g))
      end
  end.

(** Modelled from the spec: the subtasks of a group as listed, in the order
    of their creation (property P5). *)
Definition listSubtasks (gid : ident) (db : Store) : list Subtask :=
  List.filter (fun s => Nat.eqb (groupId s) gid) (subtasks db).

(** Modelled from the spec: the operations that change the store, and the
    stores they lead to from the empty one. *)
Inductive Op :=
| Materialize (fault : option nat) (now : timestamp)
    (r : Client.TaskCrusherResponse Client.SubTaskSuggestion)
| Complete (now : timestamp) (sid : ident).

Definition step (db : Store) (op : Op) : Store :=
  match op with
  | Materialize fault now r => fst (materializeGroup fault now r db)
  | Complete now sid => fst (completeSubtask now sid db)
  end.

Definition runOps (ops : list Op) : Store := fold_left step ops emptyStore.

End Server.

(** ** The screen against the backend

    [materializeGroup] of the specification: the screen's [createTaskGroup]
    with the backend answering the request it sends. *)

(** Modelled from the spec: the create-group endpoint's answer, a success
    carrying the count of subtasks created (section 4.3) or a non-success
    status. *)
Definition respond (o : Server.Outcome Server.Materialized)
  : Client.FetchOutcome Client.CreateGroupResponse :=
  match o with
  | Server.Ok m =>
      Client.HttpResponse true
        (Some {| Client.subtasks_created := Z.of_nat (Server.subtasksCreated m) |})
  | Server.Failed _ => Client.HttpResponse false None
  end.

(** [materializeGroup]: [createTaskGroup] runs up to its request, the
    backend materializes the payload it is sent (at time [now], under the
    fault [fault]), and the handler resumes with the backend's answer. The
    result is the store, what the backend returned if it was asked, and the
    handler's result. *)
Definition materializeGroup (BACKEND_URL : jsstring) (fault : option nat)
    (now : Server.timestamp) (st : Client.State) (db : Server.Store)
  : Server.Store * option (Server.Outcome Server.Materialized) * Client.Result :=
  match Client.createTaskGroup BACKEND_URL st with
  | Client.Finished r => (db, None, r)
  | Client.Fetching req k as a =>
      match Client.body req with
      | Client.CreateGroupBody p =>
          let '(db', o) := Server.materializeGroup fault now p db in
          (db', Some o, Client.run a (respond o))
      | _ => (db, None, Client.run a Client.NetworkError)
      end
  end.

(** ** How the screen reports the specification's errors *)

(** [ValidationError] of the specification: the alert of [analyzeTask]. *)
Definition validationAlert : Client.Effect :=
  Client.Alert (js "Missing Information")
               (js "Please enter a task to analyze") [].

(** [EmptySelectionError] of the specification: the alert of
    [createTaskGroup]. *)
Definition emptySelectionAlert : Client.Effect :=
  Client.Alert (js "No Tasks Selected")
               (js "Please select at least one subtask to create.") [].

(** ** Notions the statements use *)

(** The suggestions the screen currently holds, read through the
    references of [crusherResponse]. *)
Definition candidates (st : Client.State) : option (list Client.SubTaskSuggestion) :=
  r ← Client.crusherResponse st;
  Client.deref (Client.heap st) (Client.suggested_subtasks r).

(** The selection the user has made, one flag per suggestion. *)
Definition selection (st : Client.State) : option (list bool) :=
  List.map Client.selected <$> candidates st.

(** The suggestion objects of the state are distinct objects, all stored. *)
Definition wf (st : Client.State) : Prop :=
  match Client.crusherResponse st with
  | None => True
  | Some r =>
      NoDup (Client.suggested_subtasks r) /\
      Forall (fun l => is_Some (Client.heap st !! l))
             (Client.suggested_subtasks r)
  end.

(** Everything of the state but [crusherResponse] and the objects. *)
Definition form_of (st : Client.State) :=
  (Client.mainTask st, Client.formDescription st, Client.difficulty st,
   Client.estimatedDuration st, Client.isAnalyzing st, Client.taskGroups st,
   Client.showAnalysisModal st, Client.refreshing st, Client.loading st,
   Client.activeTab st).

(** Two suggestions that differ at most in their [selected] flag. *)
Definition same_content (a b : Client.SubTaskSuggestion) : Prop :=
  Client.title a = Client.title b /\
  Client.description a = Client.description b /\
  Client.estimated_duration a = Client.estimated_duration b /\
  Client.priority a = Client.priority b /\
  Client.order a = Client.order b /\
  Client.dependencies a = Client.dependencies b.

(** A run of toggles, one per index, as the user taps. *)
Definition toggles (indices : list nat) (st : Client.State) : Client.State :=
  fold_left (fun s i => (Client.toggleSubtaskSelection (Z.of_nat i) s).1.1)
            indices st.

(** Everything of a suggestion but its [selected] flag. *)
Definition content (o : Client.SubTaskSuggestion) :=
  (Client.title o, Client.description o, Client.estimated_duration o,
   Client.priority o, Client.order o, Client.dependencies o).

(** The candidate list after a toggle at index [i]. *)
Definition toggled (i : nat) (objs : list Client.SubTaskSuggestion)
  : list Client.SubTaskSuggestion :=
  match objs !! i with
  | Some o => <[i := Client.flip o]> objs
  | None => objs
  end.

(** The candidate list after a run of toggles. *)
Definition flips (indices : list nat) (objs : list Client.SubTaskSuggestion)
  : list Client.SubTaskSuggestion :=
  fold_left (fun l i => toggled i l) indices objs.

(** A suggestion and the subtask made from it carry the same data. *)
Definition copied (o : Client.SubTaskSuggestion) (s : Server.Subtask) : Prop :=
  Server.order s = Client.order o /\
  Server.priority s = Client.priority o /\
  Server.title s = Client.title o /\
  Server.description s = Client.description o /\
  Server.estimatedDurationMinutes s = Client.estimated_duration o.

(** The suggestions of a list that are selected. *)
Definition chosen (objs : list Client.SubTaskSuggestion)
  : list Client.SubTaskSuggestion :=
  List.filter Client.selected objs.

(** The store after a group and its subtasks have been added. *)
Definition extended (db : Server.Store) (g : Server.TaskGroup)
    (subs : list Server.Subtask) : Server.Store :=
  {| Server.groups := Server.groups db ++ [g];
     Server.subtasks := Server.subtasks db ++ subs;
     Server.nextId := (S (Server.nextId db) + length subs)%nat |}.

(** A row that belongs to the group [gid]: the group itself or one of its
    subtasks. *)
Definition ofGroup (gid : Server.ident) (row : Server.Row) : Prop :=
  match row with
  | Server.GroupRow g => Server.id g = gid
  | Server.SubtaskRow s => Server.groupId s = gid
  end.

(** The request body [createTaskGroup] sends from a state, when it sends
    one. *)
Definition sentPayload (BACKEND_URL : jsstring) (st : Client.State)
  : option (Client.TaskCrusherResponse Client.SubTaskSuggestion) :=
  match Client.createTaskGroup BACKEND_URL st with
  | Client.Fetching req _ =>
      match Client.body req with
      | Client.CreateGroupBody p => Some p
      | _ => None
      end
  | Client.Finished _ => None
  end.

(** The number of records a store holds. *)
Definition records (db : Server.Store) : nat :=
  (length (Server.groups db) + length (Server.subtasks db))%nat.

(** The subtasks of a group. *)
Definition members (gid : Server.ident) (subs : list Server.Subtask) :=
  List.filter (fun s => Nat.eqb (Server.groupId s) gid) subs.

(** The subtasks of a group that are complete. *)
Definition finished (gid : Server.ident) (subs : list Server.Subtask) :=
  List.filter Server.completed (members gid subs).

(** A group's counters and percentage agree with its subtasks. *)
Definition accounted (subs : list Server.Subtask) (g : Server.TaskGroup) : Prop :=
  Server.totalSubtasks g = Z.of_nat (length (members (Server.id g) subs))
  /\ Server.completedSubtasks g = Z.of_nat (length (finished (Server.id g) subs))
  /\ Server.progressPercentage g
       = Server.progressOf (Server.completedSubtasks g) (Server.totalSubtasks g).

(** What holds of every store the operations lead to. *)
Definition consistent (db : Server.Store) : Prop :=
  Forall (fun s => (Server.subtaskId s < Server.nextId db)%nat
                   /\ (Server.groupId s < Server.nextId db)%nat)
         (Server.subtasks db)
  /\ Forall (fun g => (Server.id g < Server.nextId db)%nat) (Server.groups db)
  /\ NoDup (Server.subtaskId <$> Server.subtasks db)
  /\ NoDup (Server.id <$> Server.groups db)
  /\ Forall (accounted (Server.subtasks db)) (Server.groups db).

(** What the specification asks of a group's progress (property P3). *)
Definition progress_ok (g : Server.TaskGroup) : Prop :=
  Server.progressPercentage g
    = Server.progressOf (Server.completedSubtasks g) (Server.totalSubtasks g)
  /\ 0 <= Server.completedSubtasks g <= Server.totalSubtasks g.

(** A run of [completeSubtask] calls. *)
Definition completeAll (calls : list (Server.timestamp * Server.ident))
    (db : Server.Store) : Server.Store :=
  fold_left (fun d c => fst (Server.completeSubtask c.1 c.2 d)) calls db.

(** What a first completion of subtask [sid] does to each subtask record. *)
Definition completing (now : Server.timestamp) (sid : Server.ident)
    (x : Server.Subtask) : Server.Subtask :=
  if Nat.eqb (Server.subtaskId x) sid then Server.markCompleted now x else x.

(** What a first completion in group [gid] does to each group record. *)
Definition advancing (gid : Server.ident) (x : Server.TaskGroup)
  : Server.TaskGroup :=
  if Nat.eqb (Server.id x) gid then Server.advance x else x.

(** ** A worked decomposition

    The scenario of the specification: "Launch a blog" comes back as five
    suggestions with [order] 0 to 4. *)

Definition wire (t : string) (d p o : Z) (deps : list jsstring)
    (sel : option bool) : Client.WireSubtask :=
  {| Client.w_title := js t; Client.w_description := [];
     Client.w_estimated_duration := d; Client.w_priority := p;
     Client.w_order := o; Client.w_dependencies := deps;
     Client.w_selected := sel |}.

Definition blogAnswer : Client.TaskCrusherResponse Client.WireSubtask :=
  {| Client.main_task := js "Launch a blog";
     Client.suggested_subtasks :=
       [wire "Pick a topic" 30 5 0 [] None;
        wire "Choose a platform" 45 4 1 [js "Pick a topic"] (Some false);
        wire "Design the layout" 120 3 2 [js "Choose a platform"] (Some true);
        wire "Write the first post" 90 4 3 [js "Pick a topic"] None;
        wire "Publish" 15 2 4
             [js "Write the first post"; js "Design the layout"] (Some false)];
     Client.total_estimated_duration := 300;
     Client.completion_strategy := js "One step a day";
     Client.ai_confidence := (9 # 10)%Q |}.

Definition localhost : jsstring := js "http://localhost:8001".

(** A stand-in for [parseInt] on a form whose duration field is empty. *)
Definition notANumber (s : jsstring) : option Z := None.

(** The form with only white space typed in. *)
Definition blankForm : Client.State :=
  Client.setMainTask (js "  " ++ [9; 160]%N) Client.initialState.

Definition blogForm : Client.State :=
  Client.setMainTask (js "Launch a blog") Client.initialState.

(** The screen once the service has answered. *)
Definition blogState : Client.State :=
  (Client.run (Client.analyzeTask localhost notANumber blogForm)
              (Client.HttpResponse true (Some blogAnswer))).1.1.

Definition blogSuggestions : list Client.SubTaskSuggestion :=
  Client.enhance <$> Client.suggested_subtasks blogAnswer.

(** The user deselects the suggestion at index 2. *)
Definition blogEdited : Client.State := toggles [2%nat] blogState.

(** The user deselects every suggestion. *)
Definition blogCleared : Client.State :=
  toggles [0; 1; 2; 3; 4]%nat blogState.

(** The store after the edited selection has been materialized. *)
Definition blogStore : Server.Store :=
  (materializeGroup localhost None 7%nat blogEdited Server.emptyStore).1.1.



(** The code units of the decimal digits. *)
Definition isDigit (c : N) : bool := ((48 <=? c) && (c <=? 57))%N.

(** ** The theme ([ThemeContext.tsx]) *)

Module Theme.

(** The [colors] of [ThemeContextType]. *)
Record Colors := {
  primary : jsstring;
  secondary : jsstring;
  background : jsstring;
  surface : jsstring;
  text : jsstring;
  textSecondary : jsstring;
  border : jsstring;
  success : jsstring;
  warning : jsstring;
  error : jsstring;
  gradientStart : jsstring;
  gradientEnd : jsstring
}.

Definition lightTheme : Colors :=
  {| primary := js "#667eea"; secondary := js "#764ba2";
     background := js "#f8f9fa"; surface := js "#ffffff";
     text := js "#2d3748"; textSecondary := js "#718096";
     border := js "#e2e8f0"; success := js "#30D158";
     warning := js "#FFCC00"; error := js "#FF3B30";
     gradientStart := js "#667eea"; gradientEnd := js "#764ba2" |}.

Definition darkTheme : Colors :=
  {| primary := js "#FF6B6B"; secondary := js "#FF4757";
     background := js "#1a1a1a"; surface := js "#2d2d2d";
     text := js "#ffffff"; textSecondary := js "#a0a0a0";
     border := js "#404040"; success := js "#4CAF50";
     warning := js "#FFC107"; error := js "#F44336";
     gradientStart := js "#FF6B6B"; gradientEnd := js "#FF4757" |}.

(** [const colors = isDarkMode ? darkTheme : lightTheme] *)
Definition colors (isDarkMode : bool) : Colors :=
  if isDarkMode then darkTheme else lightTheme.

(** [AsyncStorage]: string values under string keys. A call may reject;
    [fails] says whether the call at hand does. *)
Definition Storage := gmap jsstring jsstring.

(** [loadTheme]: the provider's [isDarkMode] after the mount effect, and
    what was logged. *)
Definition loadTheme (isDarkMode : bool) (storage : gmap jsstring jsstring)
    (fails : bool) : bool * list Client.Effect :=
  if fails then
    (isDarkMode, [Client.ConsoleError (js "Error loading theme:")])
  else
    match storage !! js "theme" with
    | Some savedTheme => (bool_decide (savedTheme = js "dark"), [])
    | None => (isDarkMode, [])
    end.

(** [toggleTheme]: [isDarkMode] is set before the value is stored, so a
    rejected [setItem] leaves the new mode in memory and the old value in
    storage. *)
Definition toggleTheme (isDarkMode : bool) (storage : gmap jsstring jsstring)
    (fails : bool) : bool * gmap jsstring jsstring * list Client.Effect :=
  let newTheme := negb isDarkMode in
  if fails then
    (newTheme, storage, [Client.ConsoleError (js "Error saving theme:")])
  else
    (newTheme,
     <[js "theme" := if newTheme then js "dark" else js "light"]> storage,
     []).

(** The provider of a fresh launch: [useState(false)], then [loadTheme]. *)
Definition launch (storage : gmap jsstring jsstring) (fails : bool) : bool :=
  fst (loadTheme false storage fails).

End Theme.

(** ** The rest of the [TaskCrusher] component *)

Module Screen.

Import Client.

Definition setRefreshing (b : bool) (st : State) : State :=
  {| mainTask := mainTask st; formDescription := formDescription st;
     difficulty := difficulty st; estimatedDuration := estimatedDuration st;
     isAnalyzing := isAnalyzing st; crusherResponse := crusherResponse st;
     taskGroups := taskGroups st; showAnalysisModal := showAnalysisModal st;
     refreshing := b; loading := loading st;
     activeTab := activeTab st; heap := heap st |}.

Definition setLoading (b : bool) (st : State) : State :=
  {| mainTask := mainTask st; formDescription := formDescription st;
     difficulty := difficulty st; estimatedDuration := estimatedDuration st;
     isAnalyzing := isAnalyzing st; crusherResponse := crusherResponse st;
     taskGroups := taskGroups st; showAnalysisModal := showAnalysisModal st;
     refreshing := refreshing st; loading := b;
     activeTab := activeTab st; heap := heap st |}.

Definition setDifficulty (d : Difficulty) (st : State) : State :=
  {| mainTask := mainTask st; formDescription := formDescription st;
     difficulty := d; estimatedDuration := estimatedDuration st;
     isAnalyzing := isAnalyzing st; crusherResponse := crusherResponse st;
     taskGroups := taskGroups st; showAnalysisModal := showAnalysisModal st;
     refreshing := refreshing st; loading := loading st;
     activeTab := activeTab st; heap := heap st |}.

Definition setEstimatedDuration (s : jsstring) (st : State) : State :=
  {| mainTask := mainTask st; formDescription := formDescription st;
     difficulty := difficulty st; estimatedDuration := s;
     isAnalyzing := isAnalyzing st; crusherResponse := crusherResponse st;
     taskGroups := taskGroups st; showAnalysisModal := showAnalysisModal st;
     refreshing := refreshing st; loading := loading st;
     activeTab := activeTab st; heap := heap st |}.

(** [await a; set(...)]: the statement after an awaited call runs when the
    call returns, and is skipped when it throws. *)
Definition andThen {A} (a : Async A) (f : State -> State) : Async A :=
  let after (r : Result) : Result :=
    match r with
    | (st, fx, Returned) => (f st, fx, Returned)
    | (st, fx, TypeError) => (st, fx, TypeError)
    end in
  match a with
  | Finished r => Finished (after r)
  | Fetching req k => Fetching req (fun net => after (k net))
  end.

Definition onRefresh (BACKEND_URL : jsstring) (st : State)
  : Async (list TaskGroup) :=
  andThen (fetchTaskGroups BACKEND_URL (setRefreshing true st))
          (setRefreshing false).

(** The mount effect's [loadData]. *)
Definition loadData (BACKEND_URL : jsstring) (st : State)
  : Async (list TaskGroup) :=
  andThen (fetchTaskGroups BACKEND_URL st) (setLoading false).

(** [formatDuration], on integral minutes of at most [MAX_SAFE_INTEGER]
    in size: [minutes % 60] is the remainder with the sign of [minutes],
    exactly, and [Math.floor(minutes / 60)] is the floor quotient, since
    the quotient of the numbers is below [2^48], so its rounding moves it
    by [1/64] at most, and it lies on an integer or [1/60] at least from
    the next. Beyond [60 * 2^48] the rounded quotient can reach the next
    integer, which this definition does not follow. *)
Definition formatDuration (minutes : Z) : jsstring :=
  let hours := minutes / 60 in
  let mins := Z.rem minutes 60 in
  if 0 <? hours then
    numberToString hours ++ js "h " ++ numberToString mins ++ js "m"
  else
    numberToString mins ++ js "m".

Definition getDifficultyColor (colors : Theme.Colors) (level : jsstring)
  : jsstring :=
  if bool_decide (level = js "easy") then Theme.success colors
  else if bool_decide (level = js "medium") then Theme.warning colors
  else if bool_decide (level = js "hard") then Theme.error colors
  else if bool_decide (level = js "expert") then js "#8B5CF6"
  else Theme.primary colors.

(** The string a [Difficulty] is in the source. *)
Definition levelName (d : Difficulty) : jsstring :=
  match d with
  | easy => js "easy"
  | medium => js "medium"
  | hard => js "hard"
  | expert => js "expert"
  end.

(** The number in the create button's text,
    [crusherResponse.suggested_subtasks.filter(s => s.selected).length];
    the button is rendered only with a result at hand. *)
Definition createButtonCount (st : State) : option nat :=
  r ← crusherResponse st;
  objs ← deref (heap st) (suggested_subtasks r);
  Some (length (List.filter selected objs)).

(** [Create {n} Tasks] *)
Definition createButtonText (st : State) : option jsstring :=
  n ← createButtonCount st;
  Some (js "Create " ++ numberToString (Z.of_nat n) ++ js " Tasks").

(** The summary card of the modal: the number of suggestions and the total
    time, [crusherResponse.suggested_subtasks.length] and
    [formatDuration(crusherResponse.total_estimated_duration)]. *)
Definition summary (st : State) : option (nat * jsstring) :=
  r ← crusherResponse st;
  Some (length (suggested_subtasks r),
        formatDuration (total_estimated_duration r)).

(** What the user and the platform do to the screen, with the handler each
    is wired to. *)
Inductive Event :=
| ChangeMainTask (s : jsstring)
| ChangeDescription (s : jsstring)
| ChangeEstimatedDuration (s : jsstring)
| PressDifficulty (d : Difficulty)
| PressTab (t : Tab)
| PressAnalyze (net : FetchOutcome (TaskCrusherResponse WireSubtask))
| PressSubtask (index : Z)
| PressCreate (net : FetchOutcome CreateGroupResponse)
| PressViewTasks (net : FetchOutcome (list TaskGroup))
| CloseModal
| PullToRefresh (net : FetchOutcome (list TaskGroup))
| Mount (net : FetchOutcome (list TaskGroup)).

Section Events.

Variable BACKEND_URL : jsstring.
Variable parseInt : jsstring -> option Z.

(** The state once the handler of an event has run to its end. *)
Definition handle (st : State) (e : Event) : State :=
  match e with
  | ChangeMainTask s => setMainTask s st
  | ChangeDescription s => setDescription s st
  | ChangeEstimatedDuration s => setEstimatedDuration s st
  | PressDifficulty d => setDifficulty d st
  | PressTab t => setActiveTab t st
  | PressAnalyze net => (run (analyzeTask BACKEND_URL parseInt st) net).1.1
  | PressSubtask index => (toggleSubtaskSelection index st).1.1
  | PressCreate net => (run (createTaskGroup BACKEND_URL st) net).1.1
  | PressViewTasks net => (run (viewTasks BACKEND_URL st) net).1.1
  | CloseModal => setShowAnalysisModal false st
  | PullToRefresh net => (run (onRefresh BACKEND_URL st) net).1.1
  | Mount net => (run (loadData BACKEND_URL st) net).1.1
  end.

(** The states the screen gets to when the handlers run one after the
    other, each to its end. *)
Definition reach (events : list Event) : State :=
  fold_left handle events initialState.

End Events.

End Screen.

(** The alerts a handler run has shown, heading and message. *)
Definition alerts (fx : list Client.Effect) : list (jsstring * jsstring) :=
  omap (fun e => match e with
                 | Client.Alert heading message _ => Some (heading, message)
                 | _ => None
                 end) fx.

(** What holds of the screen between two handler runs. *)
Definition settled (st : Client.State) : Prop :=
  wf st
  /\ (Client.showAnalysisModal st = true ->
      exists objs, candidates st = Some objs)
  /\ Client.isAnalyzing st = false
  /\ Client.refreshing st = false.

(** ** Replies, for the handlers that await more than once

    What one awaited [fetch] comes to: the promise rejects, or a response
    arrives, ok or not, with a body that can be used or not. [A] is what
    the handler reads of an ok body and [E] what it reads of another. *)

Inductive Reply (A E : Type) :=
| Rejected
| Succeeded (json : option A)
| Refused (json : option E).
Arguments Rejected {A E}.
Arguments Succeeded {A E} _.
Arguments Refused {A E} _.

(** ** The [DailyTasks] component *)

Module Daily.

(** [interface DailyTask] *)
Record DailyTask := {
  id : jsstring;
  title : jsstring;
  description : option jsstring;
  category : jsstring;
  estimated_duration : option Z;
  priority : Z;
  is_active : bool;
  order : Z;
  created_at : jsstring
}.

(** [interface TodayCompletions] *)
Record TodayCompletions := {
  completed_today : Z;
  completed_task_ids : list jsstring;
  total_coins_earned : Z
}.

Record State := {
  dailyTasks : list DailyTask;
  todayCompletions : TodayCompletions;
  showAddTask : bool;
  newTaskTitle : jsstring;
  newTaskDescription : jsstring;
  newTaskDuration : jsstring;
  refreshing : bool;
  loading : bool
}.

Definition initialState : State :=
  {| dailyTasks := [];
     todayCompletions :=
       {| completed_today := 0; completed_task_ids := [];
          total_coins_earned := 0 |};
     showAddTask := false; newTaskTitle := []; newTaskDescription := [];
     newTaskDuration := []; refreshing := false; loading := true |}.

Definition setDailyTasks (l : list DailyTask) (st : State) : State :=
  {| dailyTasks := l; todayCompletions := todayCompletions st;
     showAddTask := showAddTask st; newTaskTitle := newTaskTitle st;
     newTaskDescription := newTaskDescription st;
     newTaskDuration := newTaskDuration st;
     refreshing := refreshing st; loading := loading st |}.

Definition setTodayCompletions (c : TodayCompletions) (st : State) : State :=
  {| dailyTasks := dailyTasks st; todayCompletions := c;
     showAddTask := showAddTask st; newTaskTitle := newTaskTitle st;
     newTaskDescription := newTaskDescription st;
     newTaskDuration := newTaskDuration st;
     refreshing := refreshing st; loading := loading st |}.

(** [setNewTaskTitle(""); setNewTaskDescription(""); setNewTaskDuration("");
    setShowAddTask(false)] *)
Definition clearForm (st : State) : State :=
  {| dailyTasks := dailyTasks st; todayCompletions := todayCompletions st;
     showAddTask := false; newTaskTitle := []; newTaskDescription := [];
     newTaskDuration := [];
     refreshing := refreshing st; loading := loading st |}.

(** The body of the request that creates a task. *)
Record NewTask := {
  new_title : jsstring;
  new_description : option jsstring;
  new_estimated_duration : option Z;
  new_priority : Z
}.

Inductive Body :=
| NoBody
| NewTaskBody (b : NewTask).

Record Request := {
  url : jsstring;
  method : jsstring;
  body : Body
}.

(** The [onPress] of an alert button. *)
Inductive Callback := ConfirmDelete (taskId : jsstring).

Inductive Effect :=
| Fetch (r : Request)
| Alert (heading message : jsstring)
        (buttons : list (jsstring * option Callback))
| HapticSuccess
| ConsoleError (message : jsstring).

Definition Result : Type := State * list Effect.

Definition requests (r : Result) : list Request :=
  omap (fun e => match e with Fetch q => Some q | _ => None end) r.2.

Definition alerts (r : Result) : list (jsstring * jsstring) :=
  omap (fun e => match e with
                 | Alert heading message _ => Some (heading, message)
                 | _ => None
                 end) r.2.

(** The double quote of the template literals. *)
Definition quote : jsstring := [34%N].

(** What [data.coins_earned] can be in the template literal of
    [completeDailyTask]: absent, which prints [undefined]; an integral
    number; or any other value, given by the text it is converted to. *)
Inductive Coins :=
| Absent
| Count (n : Z)
| Printed (text : jsstring).

Definition coinsToString (c : Coins) : jsstring :=
  match c with
  | Absent => js "undefined"
  | Count n => numberToString n
  | Printed text => text
  end.

(** What [completeDailyTask] finds in the body of an ok answer once
    [response.json()] has resolved: [null], or a value of which it reads
    [coins_earned]. *)
Inductive CompletionBody :=
| NullData
| Data (coins_earned : Coins).

Section Handlers.

Variable BACKEND_URL : jsstring.

(** The host's [parseInt] followed by JSON encoding, as for the other
    screen. *)
Variable parseInt : jsstring -> option Z.

Definition fetchDailyTasks (st : State) (net : Reply (list DailyTask) unit)
  : Result :=
  let req := Fetch {| url := BACKEND_URL ++ js "/api/daily-tasks";
                      method := js "GET"; body := NoBody |} in
  match net with
  | Succeeded (Some data) => (setDailyTasks data st, [req])
  | Refused _ => (st, [req])
  | Succeeded None | Rejected =>
      (st, [req; ConsoleError (js "Error fetching daily tasks:")])
  end.

Definition fetchTodayCompletions (st : State)
    (net : Reply TodayCompletions unit) : Result :=
  let req := Fetch {| url := BACKEND_URL ++ js "/api/daily-tasks/completions/today";
                      method := js "GET"; body := NoBody |} in
  match net with
  | Succeeded (Some data) => (setTodayCompletions data st, [req])
  | Refused _ => (st, [req])
  | Succeeded None | Rejected =>
      (st, [req; ConsoleError (js "Error fetching today's completions:")])
  end.

(** [createDailyTask]. [post] is what the POST comes to (of a refusal the
    handler reads [detail], absent or a string) and [refetch] what the
    reload of the list after a success comes to. *)
Definition createDailyTask (st : State)
    (post : Reply unit (option jsstring))
    (refetch : Reply (list DailyTask) unit) : Result :=
  if negb (truthy (trim (newTaskTitle st))) then
    (st, [Alert (js "Missing Information") (js "Please enter a task title") []])
  else if (6 <=? length (dailyTasks st))%nat then
    (st, [Alert (js "Limit Reached")
                (js "You can only have up to 6 daily tasks") []])
  else
    let req :=
      Fetch {| url := BACKEND_URL ++ js "/api/daily-tasks";
               method := js "POST";
               body := NewTaskBody
                 {| new_title := newTaskTitle st;
                    new_description :=
                      if truthy (newTaskDescription st)
                      then Some (newTaskDescription st) else None;
                    new_estimated_duration :=
                      if truthy (newTaskDuration st)
                      then parseInt (newTaskDuration st) else None;
                    new_priority := 3 |} |} in
    match post with
    | Succeeded _ =>
        let '(st', fx) := fetchDailyTasks (clearForm st) refetch in
        (st', req :: fx ++ [HapticSuccess;
                            Alert (js "Success")
                                  (js "Daily task added successfully!") []])
    | Refused (Some detail) =>
        (st, [req;
              Alert (js "Error")
                    (match detail with
                     | Some d => if truthy d then d
                                 else js "Failed to create daily task"
                     | None => js "Failed to create daily task"
                     end) []])
    | Refused None | Rejected =>
        (st, [req; ConsoleError (js "Error creating daily task:");
              Alert (js "Error")
                    (js "Failed to create daily task. Please try again.") []])
    end.

(** [completeDailyTask]. Of an ok body the handler reads [coins_earned],
    and only after it has awaited [fetchTodayCompletions]: with [null] for
    a body that read throws once the reload is over, and the handler ends
    in its [catch]; with a body that has no [coins_earned] the message
    says [undefined]. [post] is what the POST comes to, [refetch] what the
    reload comes to. *)
Definition completeDailyTask (taskId taskTitle : jsstring) (st : State)
    (post : Reply CompletionBody (option jsstring))
    (refetch : Reply TodayCompletions unit) : Result :=
  let req :=
    Fetch {| url := BACKEND_URL ++ js "/api/daily-tasks/" ++ taskId
                      ++ js "/complete";
             method := js "POST"; body := NoBody |} in
  let failed :=
    [ConsoleError (js "Error completing daily task:");
     Alert (js "Error") (js "Failed to complete task. Please try again.") []] in
  match post with
  | Succeeded (Some data) =>
      let '(st', fx) := fetchTodayCompletions st refetch in
      match data with
      | Data coins_earned =>
          (st', req :: fx ++
                [Alert (js "Task Completed! " ++ [55356; 57225]%N)
                       (js "Great job completing " ++ quote ++ taskTitle ++ quote
                          ++ js "!" ++ [10; 10]%N ++ js "You earned "
                          ++ coinsToString coins_earned ++ js " coin!")
                       [(js "Awesome!", None)];
                 HapticSuccess])
      | NullData => (st', req :: fx ++ failed)
      end
  | Refused (Some detail) =>
      (st, [req;
            Alert (js "Error")
                  (match detail with
                   | Some d => if truthy d then d
                               else js "Failed to complete task"
                   | None => js "Failed to complete task"
                   end) []])
  | Succeeded None | Refused None | Rejected => (st, req :: failed)
  end.

(** [deleteDailyTask] only asks. *)
Definition deleteDailyTask (taskId taskTitle : jsstring) (st : State)
  : Result :=
  (st, [Alert (js "Delete Daily Task")
              (js "Are you sure you want to delete " ++ quote ++ taskTitle
                 ++ quote ++ js "?")
              [(js "Cancel", None);
               (js "Delete", Some (ConfirmDelete taskId))]]).

(** The [onPress] of the [Delete] button. *)
Definition confirmDelete (taskId : jsstring) (st : State)
    (del : Reply unit unit) (refetch : Reply (list DailyTask) unit)
  : Result :=
  let req :=
    Fetch {| url := BACKEND_URL ++ js "/api/daily-tasks/" ++ taskId;
             method := js "DELETE"; body := NoBody |} in
  match del with
  | Succeeded _ =>
      let '(st', fx) := fetchDailyTasks st refetch in
      (st', req :: fx ++ [HapticSuccess])
  | Refused _ =>
      (st, [req; Alert (js "Error") (js "Failed to delete daily task") []])
  | Rejected =>
      (st, [req; ConsoleError (js "Error deleting daily task:");
            Alert (js "Error") (js "Failed to delete daily task") []])
  end.

(** What pressing an alert button runs. *)
Definition press (c : Callback) (st : State) (del : Reply unit unit)
    (refetch : Reply (list DailyTask) unit) : Result :=
  match c with ConfirmDelete taskId => confirmDelete taskId st del refetch end.

End Handlers.

(** [todayCompletions.completed_task_ids.includes(taskId)] *)
Definition isTaskCompletedToday (st : State) (taskId : jsstring) : bool :=
  bool_decide (taskId ∈ completed_task_ids (todayCompletions st)).

(** [formatDuration(minutes?: number)], on integral minutes of at most
    [MAX_SAFE_INTEGER] in size, as for the other screen: an absent duration
    and zero give the empty text. *)
Definition formatDuration (minutes : option Z) : jsstring :=
  match minutes with
  | None => []
  | Some m =>
      if m =? 0 then []
      else
        let hours := m / 60 in
        let mins := Z.rem m 60 in
        if 0 <? hours then
          numberToString hours ++ js "h " ++ numberToString mins ++ js "m"
        else
          numberToString mins ++ js "m"
  end.

End Daily.

(** ** The [Notifications] component: the sample notifications *)

Module Notices.

(** [interface Notification] *)
Record Notification := {
  id : jsstring;
  title : jsstring;
  message : jsstring;
  type : jsstring;
  scheduled_time : jsstring;
  sent : bool;
  opened : bool;
  created_at : jsstring
}.

(** An element of [sampleNotifications]. *)
Record Sample := {
  sample_title : jsstring;
  sample_message : jsstring;
  sample_type : jsstring;
  sample_scheduled_time : jsstring
}.

Record State := {
  notifications : list Notification;
  refreshing : bool;
  loading : bool
}.

Definition setNotifications (l : list Notification) (st : State) : State :=
  {| notifications := l; refreshing := refreshing st; loading := loading st |}.

Inductive Effect :=
| Get (url : jsstring)
| Post (url : jsstring) (body : Sample)
| Alert (heading message : jsstring)
| ConsoleError (message : jsstring).

Definition Result : Type := State * list Effect.

Section Handlers.

Variable BACKEND_URL : jsstring.

(** [new Date(ms).toISOString()] *)
Variable toISOString : Z -> jsstring.

Definition fetchNotifications (st : State)
    (net : Reply (list Notification) unit) : Result :=
  let req := Get (BACKEND_URL ++ js "/api/notifications") in
  match net with
  | Succeeded (Some data) => (setNotifications data st, [req])
  | Refused _ => (st, [req])
  | Succeeded None | Rejected =>
      (st, [req; ConsoleError (js "Error fetching notifications:")])
  end.

(** [sampleNotifications]; [clock i] is what the [i]-th [Date.now()]
    reads. *)
Definition sampleNotifications (clock : nat -> Z) : list Sample :=
  [ {| sample_title := js "Daily Check-in";
       sample_message := js "How did your day go? Quick reflection time!";
       sample_type := js "reflection";
       sample_scheduled_time := toISOString (clock 0%nat + 60000) |};
    {| sample_title := js "Habit Reminder";
       sample_message := js "Don't forget your morning meditation!";
       sample_type := js "reminder";
       sample_scheduled_time := toISOString (clock 1%nat + 3600000) |};
    {| sample_title := js "Task Nudge";
       sample_message :=
         js "You have 3 high-priority tasks waiting. Need help choosing?";
       sample_type := js "nudge";
       sample_scheduled_time := toISOString (clock 2%nat + 7200000) |} ].

(** The [for] loop: one awaited POST per sample, the response never looked
    at; [rejects i] says whether the [i]-th [fetch] rejects, which ends the
    loop. The flag returned says whether the loop ran to its end. *)
Fixpoint postAll (samples : list Sample) (i : nat) (rejects : nat -> bool)
  : list Effect * bool :=
  match samples with
  | [] => ([], true)
  | s :: rest =>
      let req := Post (BACKEND_URL ++ js "/api/notifications") s in
      if rejects i then ([req], false)
      else let '(fx, finished) := postAll rest (S i) rejects in
           (req :: fx, finished)
  end.

Definition createSampleNotifications (clock : nat -> Z) (st : State)
    (rejects : nat -> bool) (refetch : Reply (list Notification) unit)
  : Result :=
  match postAll (sampleNotifications clock) 0 rejects with
  | (fx, true) =>
      let '(st', fx') := fetchNotifications st refetch in
      (st', fx ++ fx' ++ [Alert (js "Success")
                                (js "Sample notifications created!")])
  | (fx, false) =>
      (st, fx ++ [ConsoleError (js "Error creating notifications:");
                  Alert (js "Error") (js "Failed to create notifications")])
  end.

End Handlers.

Definition posts (fx : list Effect) : list Sample :=
  omap (fun e => match e with Post _ s => Some s | _ => None end) fx.

Definition shown (fx : list Effect) : list (jsstring * jsstring) :=
  omap (fun e => match e with Alert h m => Some (h, m) | _ => None end) fx.

End Notices.

(** Storage after the light theme has been saved. *)
Definition lightStorage : gmap jsstring jsstring :=
  {[ js "theme" := js "light" ]}.

(** The add-task form of the daily tasks with a title typed in. *)
Definition dailyForm : Daily.State :=
  {| Daily.dailyTasks := [];
     Daily.todayCompletions := Daily.todayCompletions Daily.initialState;
     Daily.showAddTask := true;
     Daily.newTaskTitle := js "Stretch";
     Daily.newTaskDescription := [];
     Daily.newTaskDuration := [];
     Daily.refreshing := false;
     Daily.loading := false |}.

(** The server turns a new task down with a [detail]. *)
Definition limitReply : Reply unit (option jsstring) :=
  Refused (Some (Some (js "Task limit reached"))).

(** The reload of the list does not get through. *)
Definition noReload : Reply (list Daily.DailyTask) unit := Rejected.

(** ** Trimming *)

Example isWhiteSpace_samples :
  List.map isWhiteSpace [9; 10; 13; 32; 160; 8200; 8232; 12288; 65279]%N
    = List.repeat true 9
  /\ List.map isWhiteSpace [0; 8; 14; 65; 8203; 8234]%N = List.repeat false 6.
Proof. split; reflexivity. Qed.

Example trim_sample :
  trim (js "  Launch a blog " ++ [10]%N) = js "Launch a blog"
  /\ trim (js " " ++ [9; 160; 8233]%N) = [].
Proof. split; reflexivity. Qed.

Lemma trimStart_nil_iff s : trimStart s = [] <-> whitespace_only s.
Proof.
  unfold whitespace_only. induction s as [|c s IH]; simpl.
  - split; [constructor | reflexivity].
  - destruct (isWhiteSpace c) eqn:E.
    + rewrite IH. split; [by constructor | by inversion 1].
    + split; [discriminate | inversion 1; congruence].
Qed.

Lemma trimStart_head s c r : trimStart s = c :: r -> isWhiteSpace c = false.
Proof.
  induction s as [|d s IH]; simpl; [discriminate|].
  destruct (isWhiteSpace d) eqn:E; [exact IH|]. by intros [= <- _].
Qed.

Lemma trim_nil_iff s : trim s = [] <-> whitespace_only s.
Proof.
  rewrite <- trimStart_nil_iff. unfold trim, trimEnd. split.
  - intros H. apply (f_equal (@rev N)) in H. rewrite rev_involutive in H.
    simpl in H. apply trimStart_nil_iff in H.
    destruct (trimStart s) as [|c r] eqn:E; [done|].
    apply trimStart_head in E.
    unfold whitespace_only in H. rewrite Forall_forall in H.
    specialize (H c). rewrite H in E; [discriminate|].
    apply list_elem_of_In, (proj1 (in_rev _ _)). by left.
  - intros ->. reflexivity.
Qed.

Lemma truthy_trim_false s : truthy (trim s) = false <-> whitespace_only s.
Proof.
  rewrite <- trim_nil_iff. destruct (trim s); simpl; split; done.
Qed.

(** ** The object store *)

Lemma deref_cons h l ls o objs :
  h !! l = Some o -> Client.deref h ls = Some objs ->
  Client.deref h (l :: ls) = Some (o :: objs).
Proof.
  unfold Client.deref. intros Hl Hls. simpl. rewrite Hl. simpl.
  rewrite Hls. reflexivity.
Qed.

Lemma alloc_spec objs : forall h h' ls,
  Client.alloc h objs = (h', ls) ->
  Client.deref h' ls = Some objs
  /\ NoDup ls
  /\ Forall (fun l => h !! l = None) ls
  /\ (forall l, is_Some (h !! l) -> h' !! l = h !! l).
Proof.
  induction objs as [|o rest IH]; intros h h' ls; simpl.
  - intros [= <- <-]. split; [reflexivity|]. split; [apply NoDup_nil_2|].
    split; [apply Forall_nil_2 | done].
  - destruct (Client.alloc (<[fresh (dom h) := o]> h) rest) as [h2 ls2] eqn:E.
    intros [= <- <-].
    destruct (IH _ _ _ E) as (Hd & Hnd & Hfresh & Hkeep).
    assert (Hnew : h !! fresh (dom h) = None).
    { apply not_elem_of_dom. apply is_fresh. }
    assert (Hne : Forall (fun l => l <> fresh (dom h) /\ h !! l = None) ls2).
    { eapply Forall_impl; [exact Hfresh|]. simpl. intros l Hl.
      destruct (decide (l = fresh (dom h))) as [->|Hneq].
      - rewrite lookup_insert_eq in Hl. discriminate.
      - rewrite lookup_insert_ne in Hl by done. done. }
    repeat split.
    + apply deref_cons; [|exact Hd].
      rewrite Hkeep; rewrite lookup_insert_eq; eauto.
    + constructor; [|exact Hnd].
      intros Hin. rewrite Forall_forall in Hne.
      destruct (Hne _ Hin) as [Hx _]. done.
    + constructor; [exact Hnew|].
      eapply Forall_impl; [exact Hne|]. simpl. by intros l [_ ?].
    + intros l Hl. rewrite Hkeep.
      * apply lookup_insert_ne. intros <-. rewrite Hnew in Hl.
        by destruct Hl.
      * destruct (decide (fresh (dom h) = l)) as [->|Hneq].
        -- rewrite lookup_insert_eq. eauto.
        -- rewrite lookup_insert_ne by done. done.
Qed.

Lemma deref_is_Some h ls objs :
  Client.deref h ls = Some objs -> Forall (fun l => is_Some (h !! l)) ls.
Proof.
  unfold Client.deref. rewrite mapM_Some. intros H.
  induction H; constructor; eauto.
Qed.

(** Writing to one object of an array of distinct objects changes the
    element at its index and no other. *)
Lemma deref_insert h ls objs i l o :
  NoDup ls -> Client.deref h ls = Some objs -> ls !! i = Some l ->
  Client.deref (<[l := o]> h) ls = Some (<[i := o]> objs).
Proof.
  unfold Client.deref. rewrite !mapM_Some.
  rewrite !Forall2_same_length_lookup. intros Hnd [Hlen Hall] Hi. split.
  - by rewrite length_insert.
  - intros j x y Hx Hy. destruct (decide (i = j)) as [<-|Hne].
    + assert (x = l) as -> by congruence.
      rewrite lookup_insert_eq. f_equal.
      rewrite list_lookup_insert_eq in Hy; [congruence|].
      rewrite <- Hlen. eapply lookup_lt_Some; eauto.
    + rewrite list_lookup_insert_ne in Hy by done.
      rewrite lookup_insert_ne; [eauto|].
      intros ->. apply Hne. eapply NoDup_lookup; eauto.
Qed.

Section ScreenFacts.

Variable BACKEND_URL : jsstring.
Variable parseInt : jsstring -> option Z.

(** C7. [analyzeTask] answers a [mainTask] that is empty or holds white
    space only with the validation alert: the handler finishes without a
    request to the decomposition service, whatever the network would have
    answered, and leaves the state as it was. *)
Theorem analyzeTask_rejects_blank (st : Client.State) :
  whitespace_only (Client.mainTask st) ->
  Client.analyzeTask BACKEND_URL parseInt st
    = Client.Finished (st, [validationAlert], Client.Returned)
  /\ forall net,
       Client.run (Client.analyzeTask BACKEND_URL parseInt st) net
         = (st, [validationAlert], Client.Returned)
       /\ Client.requests
            (Client.run (Client.analyzeTask BACKEND_URL parseInt st) net) = [].
Proof.
  intros H. apply truthy_trim_false in H.
  unfold Client.analyzeTask. rewrite H. simpl. split; [reflexivity|].
  intros net. split; reflexivity.
Qed.

(** A task with anything but white space in it is sent to the service. *)
Lemma analyzeTask_sends (st : Client.State) :
  ~ whitespace_only (Client.mainTask st) ->
  exists req k, Client.analyzeTask BACKEND_URL parseInt st = Client.Fetching req k
    /\ Client.url req = BACKEND_URL ++ js "/api/task-crusher/analyze".
Proof.
  intros H. unfold Client.analyzeTask.
  destruct (truthy (trim (Client.mainTask st))) eqn:E.
  - simpl. eauto.
  - apply truthy_trim_false in E. contradiction.
Qed.

(** C10. With no decomposition result at hand ([crusherResponse] is
    [null]), [toggleSubtaskSelection] returns at once for every index and
    [createTaskGroup] finishes at once: the state is unchanged, nothing is
    shown and no request is issued, so the backend store stays as it is. *)
Theorem null_response_guard (st : Client.State) :
  Client.crusherResponse st = None ->
  (forall index, Client.toggleSubtaskSelection index st = (st, [], Client.Returned))
  /\ Client.createTaskGroup BACKEND_URL st = Client.Finished (st, [], Client.Returned)
  /\ forall fault now db,
       materializeGroup BACKEND_URL fault now st db
         = (db, None, (st, [], Client.Returned)).
Proof.
  intros H. repeat split.
  - intros index. unfold Client.toggleSubtaskSelection. by rewrite H.
  - unfold Client.createTaskGroup. by rewrite H.
  - intros fault now db. unfold materializeGroup, Client.createTaskGroup.
    by rewrite H.
Qed.

Lemma filter_all_false {A} (f : A -> bool) (l : list A) :
  Forall (fun x => f x = false) l -> List.filter f l = [].
Proof.
  induction 1 as [|x l Hx _ IH]; simpl; [done|]. by rewrite Hx.
Qed.

(** C4. When every suggestion is deselected, [createTaskGroup] shows the
    empty-selection alert and finishes: no request is sent, the state is
    unchanged, and the backend store is not touched. *)
Theorem createTaskGroup_rejects_empty_selection
    (st : Client.State) (objs : list Client.SubTaskSuggestion) :
  candidates st = Some objs ->
  Forall (fun o => Client.selected o = false) objs ->
  Client.createTaskGroup BACKEND_URL st
    = Client.Finished (st, [emptySelectionAlert], Client.Returned)
  /\ (forall net,
        Client.requests (Client.run (Client.createTaskGroup BACKEND_URL st) net) = [])
  /\ forall fault now db,
       materializeGroup BACKEND_URL fault now st db
         = (db, None, (st, [emptySelectionAlert], Client.Returned)).
Proof.
  intros Hc Hall. unfold candidates in Hc.
  destruct (Client.crusherResponse st) as [r|] eqn:Hr; [|discriminate].
  simpl in Hc.
  assert (E : Client.createTaskGroup BACKEND_URL st
              = Client.Finished (st, [emptySelectionAlert], Client.Returned)).
  { unfold Client.createTaskGroup. rewrite Hr, Hc.
    by rewrite (filter_all_false _ _ Hall). }
  repeat split.
  - exact E.
  - intros net. by rewrite E.
  - intros fault now db. unfold materializeGroup. by rewrite E.
Qed.

End ScreenFacts.

(** ** Selection *)

Lemma content_flip o : content (Client.flip o) = content o.
Proof. reflexivity. Qed.

Lemma same_content_iff a b : same_content a b <-> content a = content b.
Proof.
  unfold same_content, content. split.
  - intros (-> & -> & -> & -> & -> & ->). reflexivity.
  - intros [= -> -> -> -> -> ->]. repeat split.
Qed.

Lemma with_subtasks_same {A} (r : Client.TaskCrusherResponse A) :
  Client.with_subtasks r (Client.suggested_subtasks r) = r.
Proof. by destruct r. Qed.

Lemma at_index_nat {A} (l : list A) (i : nat) :
  Client.at_index l (Z.of_nat i) = l !! i.
Proof.
  unfold Client.at_index.
  destruct (Z.ltb_spec (Z.of_nat i) 0); [lia|]. by rewrite Nat2Z.id.
Qed.

Lemma toggled_length i objs : length (toggled i objs) = length objs.
Proof.
  unfold toggled. destruct (objs !! i); [apply length_insert | done].
Qed.

Lemma toggled_content i objs : content <$> toggled i objs = content <$> objs.
Proof.
  unfold toggled. destruct (objs !! i) as [o|] eqn:E; [|done].
  rewrite list_fmap_insert, content_flip.
  apply list_insert_id. by rewrite list_lookup_fmap, E.
Qed.

Lemma toggled_cons_S i x objs : toggled (S i) (x :: objs) = x :: toggled i objs.
Proof. unfold toggled. simpl. by destruct (objs !! i). Qed.

Lemma flips_length indices : forall objs, length (flips indices objs) = length objs.
Proof.
  induction indices as [|i ixs IH]; intros objs; simpl; [done|].
  unfold flips in *. simpl. by rewrite IH, toggled_length.
Qed.

Lemma flips_content indices : forall objs,
  content <$> flips indices objs = content <$> objs.
Proof.
  induction indices as [|i ixs IH]; intros objs; [done|].
  unfold flips in *. simpl. by rewrite IH, toggled_content.
Qed.

Lemma flips_cons_S indices : forall x objs,
  flips (S <$> indices) (x :: objs) = x :: flips indices objs.
Proof.
  induction indices as [|i ixs IH]; intros x objs; [done|].
  unfold flips in *. simpl. by rewrite toggled_cons_S, IH.
Qed.

(** Any selection can be reached by flipping the flags that differ. *)
Lemma flips_reach objs : forall target : list bool,
  length target = length objs ->
  exists indices,
    Forall (fun i => (i < length objs)%nat) indices
    /\ Client.selected <$> flips indices objs = target.
Proof.
  induction objs as [|o rest IH]; intros [|b t] Hlen; simpl in Hlen; try lia.
  - exists []. split; [constructor | done].
  - destruct (IH t) as (ixs & Hin & Hsel); [lia|].
    assert (Hin' : Forall (fun i => (i < length (o :: rest))%nat) (S <$> ixs)).
    { apply Forall_fmap. eapply Forall_impl; [exact Hin|]. simpl. lia. }
    destruct (decide (Client.selected o = b)) as [Hb|Hb].
    + exists (S <$> ixs). split; [exact Hin'|].
      rewrite flips_cons_S, fmap_cons. by rewrite Hb, Hsel.
    + exists (0%nat :: (S <$> ixs)). split.
      * constructor; [simpl; lia | exact Hin'].
      * change (flips (0%nat :: (S <$> ixs)) (o :: rest))
          with (flips (S <$> ixs) (Client.flip o :: rest)).
        rewrite flips_cons_S, fmap_cons, Hsel. f_equal.
        simpl. destruct (Client.selected o), b; simpl; congruence.
Qed.

Lemma wf_initialState : wf Client.initialState.
Proof. exact I. Qed.

Lemma toggle_in_range (st : Client.State) objs i o :
  wf st -> candidates st = Some objs -> objs !! i = Some o ->
  exists st',
    Client.toggleSubtaskSelection (Z.of_nat i) st = (st', [], Client.Returned)
    /\ candidates st' = Some (<[i := Client.flip o]> objs)
    /\ Client.crusherResponse st' = Client.crusherResponse st
    /\ form_of st' = form_of st
    /\ wf st'.
Proof.
  unfold wf, candidates. intros Hwf Hc Hi.
  destruct (Client.crusherResponse st) as [r|] eqn:Hr; [|discriminate].
  simpl in Hc. destruct Hwf as [Hnd Hall].
  assert (Hlen : length (Client.suggested_subtasks r) = length objs)
    by (eapply length_mapM; exact Hc).
  destruct (lookup_lt_is_Some_2 (Client.suggested_subtasks r) i) as [l Hl].
  { rewrite Hlen. eapply lookup_lt_Some; eauto. }
  assert (Hlo : Client.heap st !! l = Some o).
  { unfold Client.deref in Hc. rewrite mapM_Some in Hc.
    destruct (Forall2_lookup_l _ _ _ _ _ Hc Hl) as (o' & Ho' & Hh). congruence. }
  unfold Client.toggleSubtaskSelection. rewrite Hr, at_index_nat, Hl, Hlo.
  rewrite with_subtasks_same.
  eexists. split; [reflexivity|]. simpl. repeat split.
  - by apply deref_insert.
  - exact Hnd.
  - eapply Forall_impl; [exact Hall|]. simpl. intros l' [x Hx].
    destruct (decide (l = l')) as [->|Hne].
    + rewrite lookup_insert_eq. eauto.
    + rewrite lookup_insert_ne by done. eauto.
Qed.

(** An index with no suggestion behind it makes the handler throw before
    any state is set. *)
Lemma toggle_out_of_range (st : Client.State) r index :
  Client.crusherResponse st = Some r ->
  Client.at_index (Client.suggested_subtasks r) index = None ->
  Client.toggleSubtaskSelection index st = (st, [], Client.TypeError).
Proof.
  intros Hr Hi. unfold Client.toggleSubtaskSelection. by rewrite Hr, Hi.
Qed.

Lemma toggles_candidates indices : forall (st : Client.State) objs,
  wf st -> candidates st = Some objs ->
  Forall (fun i => (i < length objs)%nat) indices ->
  candidates (toggles indices st) = Some (flips indices objs)
  /\ Client.crusherResponse (toggles indices st) = Client.crusherResponse st
  /\ form_of (toggles indices st) = form_of st
  /\ wf (toggles indices st).
Proof.
  induction indices as [|i ixs IH]; intros st objs Hwf Hc Hin.
  - by repeat split.
  - inversion Hin as [|? ? Hi His]; subst.
    destruct (lookup_lt_is_Some_2 objs i Hi) as [o Ho].
    destruct (toggle_in_range st objs i o Hwf Hc Ho)
      as (st' & Hrun & Hc' & Hr' & Hf' & Hwf').
    destruct (IH st' (<[i := Client.flip o]> objs) Hwf' Hc')
      as (Hc2 & Hr2 & Hf2 & Hwf2).
    { by rewrite length_insert. }
    change (toggles (i :: ixs) st)
      with (toggles ixs (Client.toggleSubtaskSelection (Z.of_nat i) st).1.1).
    rewrite Hrun.
    change (flips (i :: ixs) objs) with (flips ixs (toggled i objs)).
    unfold toggled. rewrite Ho. simpl fst.
    repeat split; [done | congruence | congruence | done].
Qed.

Section SelectionFacts.

Variable BACKEND_URL : jsstring.
Variable parseInt : jsstring -> option Z.

(** C8. When the decomposition succeeds (the task is sent and the service
    answers with an acceptable body), the state holds the service's
    suggestions, each with [selected = true] whatever flag the service had
    put there, as distinct objects; the other fields of the suggestions and
    of the response are those of the service. *)
Theorem analyzeTask_selects_all (st : Client.State)
    (data : Client.TaskCrusherResponse Client.WireSubtask) :
  ~ whitespace_only (Client.mainTask st) ->
  exists req st' r objs,
    Client.run (Client.analyzeTask BACKEND_URL parseInt st)
               (Client.HttpResponse true (Some data))
      = (st', [Client.Fetch req; Client.HapticSuccess], Client.Returned)
    /\ Client.crusherResponse st' = Some r
    /\ r = Client.with_subtasks data (Client.suggested_subtasks r)
    /\ candidates st' = Some objs
    /\ objs = Client.enhance <$> Client.suggested_subtasks data
    /\ Forall (fun o => Client.selected o = true) objs
    /\ wf st'.
Proof.
  intros Hns. unfold Client.analyzeTask.
  destruct (truthy (trim (Client.mainTask st))) eqn:E;
    [|apply truthy_trim_false in E; contradiction].
  simpl.
  destruct (Client.alloc (Client.heap st)
              (List.map Client.enhance (Client.suggested_subtasks data)))
    as [h refs] eqn:Ha.
  destruct (alloc_spec _ _ _ _ Ha) as (Hd & Hnd & _ & _).
  do 4 eexists. split; [reflexivity|]. simpl.
  split; [reflexivity|]. split; [reflexivity|].
  unfold candidates, wf. simpl.
  split; [exact Hd|]. split; [reflexivity|]. split.
  - apply Forall_fmap, Forall_true. reflexivity.
  - split; [exact Hnd | by eapply deref_is_Some].
Qed.

(** C9. A toggle at the index of a suggestion flips that suggestion's
    [selected] flag and nothing else: the other suggestions, the other
    fields of the toggled one, the response record and the rest of the
    state are as before, no effect is produced (no alert, no request), and
    the objects stay distinct. Every selection, the empty one included, is
    reached from any other by a run of toggles that changes no content. *)
Theorem toggle_flips_exactly_one (st : Client.State)
    (objs : list Client.SubTaskSuggestion) :
  wf st -> candidates st = Some objs ->
  (forall i o, objs !! i = Some o ->
     exists st',
       Client.toggleSubtaskSelection (Z.of_nat i) st = (st', [], Client.Returned)
       /\ candidates st' = Some (<[i := Client.flip o]> objs)
       /\ same_content o (Client.flip o)
       /\ Client.selected (Client.flip o) = negb (Client.selected o)
       /\ Client.crusherResponse st' = Client.crusherResponse st
       /\ form_of st' = form_of st
       /\ wf st')
  /\ (forall target : list bool,
        length target = length objs ->
        exists indices objs',
          candidates (toggles indices st) = Some objs'
          /\ selection (toggles indices st) = Some target
          /\ Forall2 same_content objs objs'
          /\ Client.crusherResponse (toggles indices st) = Client.crusherResponse st
          /\ form_of (toggles indices st) = form_of st).
Proof.
  intros Hwf Hc. split.
  - intros i o Ho.
    destruct (toggle_in_range st objs i o Hwf Hc Ho)
      as (st' & Hrun & Hc' & Hr' & Hf' & Hwf').
    exists st'. repeat split; done.
  - intros target Hlen.
    destruct (flips_reach objs target Hlen) as (indices & Hin & Hsel).
    destruct (toggles_candidates indices st objs Hwf Hc Hin)
      as (Hc' & Hr' & Hf' & _).
    exists indices, (flips indices objs). repeat split; try done.
    + unfold selection. rewrite Hc'. simpl. by f_equal.
    + apply Forall2_same_length_lookup. split.
      * by rewrite flips_length.
      * intros j x y Hx Hy. apply same_content_iff.
        pose proof (flips_content indices objs) as Hcont.
        apply (f_equal (fun l => l !! j)) in Hcont.
        rewrite !list_lookup_fmap, Hx, Hy in Hcont. simpl in Hcont. congruence.
Qed.

End SelectionFacts.

(** ** Materialization on the backend *)

Lemma writeRows_cases rows : forall fault db,
  (Server.writeRows fault rows db
     = (fold_left (fun d r => Server.write r d) rows db, true)
   /\ (fault = None \/ exists k, fault = Some k /\ (length rows <= k)%nat))
  \/ (exists k, fault = Some k /\ (k < length rows)%nat
       /\ Server.writeRows fault rows db
          = (fold_left (fun d r => Server.write r d) (take k rows) db, false)).
Proof.
  induction rows as [|r rows IH]; intros fault db; simpl.
  - left. split; [done|]. destruct fault as [k|]; [right | by left].
    exists k. split; [done | lia].
  - destruct fault as [[|k]|].
    + right. exists 0%nat. split; [done|]. split; [lia | done].
    + destruct (IH (Some k) (Server.write r db))
        as [[Hw [Hf|(k' & [= <-] & Hk)]]|(k' & [= <-] & Hk & Hw)];
        try discriminate.
      * left. split; [done|]. right. exists (S k). split; [done | lia].
      * right. exists (S k). split; [done|]. split; [lia | done].
    + destruct (IH None (Server.write r db))
        as [[Hw _]|(k' & Hk & _)]; [|discriminate].
      left. split; [done | by left].
Qed.

Lemma discard_write gid row db :
  ofGroup gid row ->
  Server.discard gid (Server.write row db) = Server.discard gid db.
Proof.
  destruct row as [g|x]; simpl; intros <-; unfold Server.discard; simpl;
    rewrite List.filter_app; simpl; rewrite Nat.eqb_refl; simpl;
    by rewrite app_nil_r.
Qed.

Lemma discard_writes gid rows : forall db,
  Forall (ofGroup gid) rows ->
  Server.discard gid (fold_left (fun d r => Server.write r d) rows db)
    = Server.discard gid db.
Proof.
  induction rows as [|r rows IH]; intros db Hall; simpl; [done|].
  inversion Hall; subst. rewrite IH by done. by apply discard_write.
Qed.

Lemma records_writes rows : forall db,
  records (fold_left (fun d r => Server.write r d) rows db)
    = (records db + length rows)%nat.
Proof.
  induction rows as [|r rows IH]; intros db; simpl; [unfold records; lia|].
  rewrite IH. unfold records.
  destruct r; simpl; rewrite length_app; simpl; lia.
Qed.

Lemma filter_all_true {A} (f : A -> bool) (l : list A) :
  Forall (fun x => f x = true) l -> List.filter f l = l.
Proof.
  induction 1 as [|x l Hx _ IH]; simpl; [done|]. by rewrite Hx, IH.
Qed.

(** In a store the operations lead to, the identifier to hand out next
    names no group and owns no subtask: there is nothing to discard. *)
Lemma discard_fresh db :
  consistent db -> Server.discard (Server.nextId db) db = db.
Proof.
  intros (Hsub & Hgrp & _). unfold Server.discard. destruct db as [gs ss n].
  simpl in *. f_equal; apply filter_all_true.
  - eapply Forall_impl; [exact Hgrp|]. simpl. intros g Hg.
    apply negb_true_iff, Nat.eqb_neq. lia.
  - eapply Forall_impl; [exact Hsub|]. simpl. intros x [_ Hx].
    apply negb_true_iff, Nat.eqb_neq. lia.
Qed.

Lemma write_subtasks subs : forall work,
  fold_left (fun d r => Server.write r d) (List.map Server.SubtaskRow subs) work
    = {| Server.groups := Server.groups work;
         Server.subtasks := Server.subtasks work ++ subs;
         Server.nextId := Server.nextId work |}.
Proof.
  induction subs as [|s subs IH]; intros work; simpl.
  - rewrite app_nil_r. by destruct work.
  - rewrite IH. simpl. by rewrite <- app_assoc.
Qed.

Lemma subtaskOf_batch gid batch : forall ids objs,
  length ids = length objs ->
  Forall2 (fun o s => copied o s /\ Server.groupId s = gid
                      /\ Server.completed s = false
                      /\ Server.completedAt s = None)
          objs (List.map (Server.subtaskOf gid batch) (combine ids objs))
  /\ List.map Server.subtaskId
       (List.map (Server.subtaskOf gid batch) (combine ids objs)) = ids.
Proof.
  induction ids as [|i ids IH]; intros [|o objs] Hlen; simpl in *; try lia.
  - split; [constructor | done].
  - destruct (IH objs) as [H1 H2]; [lia|]. split.
    + constructor; [|exact H1]. unfold copied. by repeat split.
    + by rewrite H2.
Qed.

(** The rows of a materialization: the group, then its subtasks. *)
Lemma rowsOf_shape now r db :
  exists g subs,
    Server.rowsOf now r db
      = Server.GroupRow g :: List.map Server.SubtaskRow subs
    /\ Server.id g = Server.nextId db
    /\ Server.mainTaskTitle g = Client.main_task r
    /\ Server.totalSubtasks g
         = Z.of_nat (length (Client.suggested_subtasks r))
    /\ Server.completedSubtasks g = 0
    /\ Server.progressPercentage g
         = Server.progressOf (Server.completedSubtasks g) (Server.totalSubtasks g)
    /\ Forall2 (fun o s => copied o s /\ Server.groupId s = Server.nextId db
                           /\ Server.completed s = false
                           /\ Server.completedAt s = None)
               (Client.suggested_subtasks r) subs
    /\ List.map Server.subtaskId subs
         = seq (S (Server.nextId db)) (length (Client.suggested_subtasks r)).
Proof.
  unfold Server.rowsOf.
  set (sel := Client.suggested_subtasks r).
  set (gid := Server.nextId db).
  set (batch := combine (seq (S gid) (length sel)) sel).
  destruct (subtaskOf_batch gid batch (seq (S gid) (length sel)) sel)
    as [Hcopy Hids]; [by rewrite length_seq|].
  fold batch in Hcopy, Hids.
  eexists _, (List.map (Server.subtaskOf gid batch) batch).
  split; [by rewrite List.map_map|]. by repeat split.
Qed.

Lemma rowsOf_ofGroup now r db :
  Forall (ofGroup (Server.nextId db)) (Server.rowsOf now r db).
Proof.
  destruct (rowsOf_shape now r db)
    as (g & subs & -> & Hid & _ & _ & _ & _ & Hcopy & _).
  constructor; [exact Hid|]. apply Forall_fmap.
  eapply Forall2_Forall_r; [exact Hcopy|].
  apply Forall_true. by intros o x (_ & ? & _).
Qed.

Lemma rowsOf_length now r db :
  length (Server.rowsOf now r db) = S (length (Client.suggested_subtasks r)).
Proof.
  unfold Server.rowsOf. simpl.
  by rewrite length_map, length_combine, length_seq, Nat.min_id.
Qed.

Lemma materializeGroup_nonempty fault now r db :
  Client.suggested_subtasks r <> [] ->
  Server.materializeGroup fault now r db
    = match Server.writeRows fault (Server.rowsOf now r db) db with
      | (db', true) =>
          ({| Server.groups := Server.groups db';
              Server.subtasks := Server.subtasks db';
              Server.nextId :=
                (S (Server.nextId db) + length (Client.suggested_subtasks r))%nat |},
           Server.Ok {| Server.newGroupId := Server.nextId db;
                        Server.subtasksCreated :=
                          length (Client.suggested_subtasks r) |})
      | (db', false) =>
          (Server.discard (Server.nextId db) db',
           Server.Failed Server.PersistenceError)
      end.
Proof.
  intros Hne. unfold Server.materializeGroup.
  by destruct (Client.suggested_subtasks r).
Qed.

(** What [Server.materializeGroup] does with at least one suggestion to
    materialize: it extends the store by one group and the subtasks of the
    suggestions; or a fault strikes at one of its writes, the rows before
    are in the store at that moment, and what it returns is the store with
    the rows of the new group removed. *)
Lemma materialize_cases fault now r db :
  Client.suggested_subtasks r <> [] ->
  (exists g subs,
      Server.materializeGroup fault now r db
        = (extended db g subs,
           Server.Ok {| Server.newGroupId := Server.nextId db;
                        Server.subtasksCreated :=
                          length (Client.suggested_subtasks r) |})
      /\ Server.id g = Server.nextId db
      /\ Server.mainTaskTitle g = Client.main_task r
      /\ Server.totalSubtasks g
           = Z.of_nat (length (Client.suggested_subtasks r))
      /\ Server.completedSubtasks g = 0
      /\ Server.progressPercentage g
           = Server.progressOf (Server.completedSubtasks g) (Server.totalSubtasks g)
      /\ Forall2 (fun o s => copied o s /\ Server.groupId s = Server.nextId db
                             /\ Server.completed s = false
                             /\ Server.completedAt s = None)
                 (Client.suggested_subtasks r) subs
      /\ List.map Server.subtaskId subs
           = seq (S (Server.nextId db)) (length (Client.suggested_subtasks r))
      /\ (fault = None
          \/ exists k, fault = Some k
               /\ (length (Client.suggested_subtasks r) < k)%nat))
  \/ (exists k partial,
        fault = Some k
        /\ (k <= length (Client.suggested_subtasks r))%nat
        /\ Server.writeRows fault (Server.rowsOf now r db) db = (partial, false)
        /\ records partial = (records db + k)%nat
        /\ Server.materializeGroup fault now r db
           = (Server.discard (Server.nextId db) db,
              Server.Failed Server.PersistenceError)).
Proof.
  intros Hne. rewrite (materializeGroup_nonempty fault now r db Hne).
  pose proof (rowsOf_length now r db) as Hrl.
  destruct (writeRows_cases (Server.rowsOf now r db) fault db)
    as [[Hw Hf]|(k & -> & Hk & Hw)]; rewrite Hw.
  - left.
    destruct (rowsOf_shape now r db)
      as (g & subs & Hrows & Hid & Htitle & Htot & Hzero & Hprog & Hcopy & Hids).
    exists g, subs.
    assert (Hlen : length subs = length (Client.suggested_subtasks r))
      by (symmetry; eapply Forall2_length; exact Hcopy).
    split.
    { rewrite Hrows. cbn [fold_left]. rewrite write_subtasks.
      unfold extended. simpl. by rewrite Hlen. }
    repeat split; try done.
    destruct Hf as [->|(k & -> & Hk)]; [by left|].
    right. exists k. split; [done | lia].
  - right. exists k, (fold_left (fun d r0 => Server.write r0 d)
                        (take k (Server.rowsOf now r db)) db).
    split; [done|]. split; [lia|]. split; [done|]. split.
    + rewrite records_writes, length_take. lia.
    + f_equal. apply discard_writes, Forall_take, rowsOf_ofGroup.
Qed.

(** ** The request the screen sends, and what comes of it *)

Lemma createTaskGroup_sends url (st : Client.State) r objs :
  Client.crusherResponse st = Some r ->
  Client.deref (Client.heap st) (Client.suggested_subtasks r) = Some objs ->
  chosen objs <> [] ->
  exists k,
    Client.createTaskGroup url st
      = Client.Fetching
          {| Client.url := url ++ js "/api/task-crusher/create-group";
             Client.method := Client.POST;
             Client.body := Client.CreateGroupBody
                              (Client.with_subtasks r (chosen objs)) |} k.
Proof.
  intros Hr Hd Hne. unfold Client.createTaskGroup. rewrite Hr, Hd.
  fold (chosen objs).
  destruct (chosen objs) as [|o rest]; [done|]. simpl. eauto.
Qed.

Lemma materializeGroup_sent url fault now (st : Client.State) db objs :
  candidates st = Some objs -> chosen objs <> [] ->
  exists r,
    Client.crusherResponse st = Some r
    /\ sentPayload url st = Some (Client.with_subtasks r (chosen objs))
    /\ materializeGroup url fault now st db
       = let p := Server.materializeGroup fault now
                    (Client.with_subtasks r (chosen objs)) db in
         (p.1, Some p.2, Client.run (Client.createTaskGroup url st) (respond p.2)).
Proof.
  unfold candidates. intros Hc Hne.
  destruct (Client.crusherResponse st) as [r|] eqn:Hr; [|discriminate].
  simpl in Hc. exists r. split; [done|].
  destruct (createTaskGroup_sends url st r objs Hr Hc Hne) as [k Hk].
  unfold sentPayload, materializeGroup. rewrite Hk. simpl.
  split; [done|]. by destruct (Server.materializeGroup _ _ _ _).
Qed.

(** What a successful materialization has done, and that one without a
    fault is successful. *)
Lemma successful_materialization url now
    (st : Client.State) (db : Server.Store) objs :
  candidates st = Some objs -> chosen objs <> [] ->
  (forall fault db' m res,
      materializeGroup url fault now st db = (db', Some (Server.Ok m), res) ->
      exists g subs,
        db' = extended db g subs
        /\ Server.newGroupId m = Server.id g
        /\ Server.subtasksCreated m = length (chosen objs)
        /\ Server.totalSubtasks g = Z.of_nat (length (chosen objs))
        /\ Server.completedSubtasks g = 0
        /\ Forall2 copied (chosen objs) subs
        /\ Forall (fun s => Server.groupId s = Server.id g
                            /\ Server.completed s = false) subs)
  /\ exists db' m res,
       materializeGroup url None now st db = (db', Some (Server.Ok m), res).
Proof.
  intros Hc Hne. split.
  - intros fault db' m res.
    destruct (materializeGroup_sent url fault now st db objs Hc Hne)
      as (r & Hr & _ & ->).
    destruct (materialize_cases fault now
                (Client.with_subtasks r (chosen objs)) db Hne)
      as [(g & subs & Hm & Hid & _ & Htot & Hzero & _ & Hcopy & _ & Hf)
         |(k & partial & _ & _ & _ & _ & Hm)];
      rewrite Hm; simpl; [|discriminate].
    simpl in Htot, Hcopy.
    intros [= <- <- _]. exists g, subs. simpl.
    repeat split; try done.
    + eapply Forall2_impl; [exact Hcopy|]. by intros o s [? _].
    + eapply Forall2_Forall_r; [exact Hcopy|].
      apply Forall_true. intros o s (_ & Hg & Hcompl & _).
      split; congruence.
  - destruct (materializeGroup_sent url None now st db objs Hc Hne)
      as (r & Hr & _ & ->).
    destruct (materialize_cases None now
                (Client.with_subtasks r (chosen objs)) db Hne)
      as [(g & subs & Hm & _)|(k & partial & Hk & _)]; [|discriminate].
    rewrite Hm. simpl. eauto.
Qed.

(** C3. The request [createTaskGroup] sends carries the selected
    suggestions and no others, and the subtasks [materializeGroup] persists
    are those of the selected suggestions, one for each and in their order,
    each with the suggestion's [order], [priority], [title], [description]
    and duration; the group created has [totalSubtasks] equal to the number
    of selected suggestions and [completedSubtasks = 0]. This is what every
    successful materialization does, and a materialization without a
    persistence fault is successful. The backend persists every suggestion
    it is sent: that the unselected ones are left out is the screen's
    doing. *)
Theorem materialization_postcondition url now
    (st : Client.State) (db : Server.Store) objs :
  candidates st = Some objs -> chosen objs <> [] ->
  (exists p, sentPayload url st = Some p
             /\ Client.suggested_subtasks p = chosen objs)
  /\ (forall fault db' m res,
      materializeGroup url fault now st db = (db', Some (Server.Ok m), res) ->
      exists g subs,
        db' = extended db g subs
        /\ Server.newGroupId m = Server.id g
        /\ Server.subtasksCreated m = length (chosen objs)
        /\ Server.totalSubtasks g = Z.of_nat (length (chosen objs))
        /\ Server.completedSubtasks g = 0
        /\ Forall2 copied (chosen objs) subs
        /\ Forall (fun s => Server.groupId s = Server.id g
                            /\ Server.completed s = false) subs)
  /\ exists db' m res,
       materializeGroup url None now st db = (db', Some (Server.Ok m), res).
Proof.
  intros Hc Hne. split.
  - destruct (materializeGroup_sent url None now st db objs Hc Hne)
      as (r & _ & Hsent & _).
    by exists (Client.with_subtasks r (chosen objs)).
  - exact (successful_materialization url now st db objs Hc Hne).
Qed.

(** ** Completion and the counters *)

Lemma accounted_progress subs g : accounted subs g -> progress_ok g.
Proof.
  intros (Ht & Hc & Hp). split; [exact Hp|]. rewrite Ht, Hc.
  unfold finished. pose proof (filter_length_le Server.completed
                                 (members (Server.id g) subs)). lia.
Qed.

Lemma members_app gid l k : members gid (l ++ k) = members gid l ++ members gid k.
Proof. apply List.filter_app. Qed.

Lemma members_none gid l :
  Forall (fun s => Server.groupId s <> gid) l -> members gid l = [].
Proof.
  intros H. apply filter_all_false. eapply Forall_impl; [exact H|].
  simpl. intros s Hs. by apply Nat.eqb_neq.
Qed.

Lemma members_all gid l :
  Forall (fun s => Server.groupId s = gid) l -> members gid l = l.
Proof.
  induction 1 as [|s l Hs _ IH]; [done|]. unfold members in *. simpl.
  rewrite (proj2 (Nat.eqb_eq _ _) Hs). by rewrite IH.
Qed.

Lemma completing_id now sid x :
  Server.subtaskId (completing now sid x) = Server.subtaskId x.
Proof. unfold completing. by destruct (Nat.eqb _ _). Qed.

Lemma completing_group now sid x :
  Server.groupId (completing now sid x) = Server.groupId x.
Proof. unfold completing. by destruct (Nat.eqb _ _). Qed.

Lemma advancing_id gid x : Server.id (advancing gid x) = Server.id x.
Proof. unfold advancing. by destruct (Nat.eqb _ _). Qed.

Lemma members_completing now sid gid l :
  members gid (List.map (completing now sid) l)
    = List.map (completing now sid) (members gid l).
Proof.
  induction l as [|x l IH]; [done|]. unfold members in *. simpl.
  rewrite completing_group. destruct (Nat.eqb _ gid); simpl; by rewrite IH.
Qed.

Lemma completing_absent now sid l :
  Forall (fun x => Server.subtaskId x <> sid) l ->
  List.map (completing now sid) l = l.
Proof.
  induction 1 as [|x l Hx _ IH]; [done|]. simpl. rewrite IH. f_equal.
  unfold completing. by rewrite (proj2 (Nat.eqb_neq _ _) Hx).
Qed.

(** Completing a subtask that is not complete yet adds one to the finished
    subtasks of its group and none to those of another group. *)
Lemma finished_completing now sid gid s : forall l,
  NoDup (Server.subtaskId <$> l) ->
  List.find (fun x => Nat.eqb (Server.subtaskId x) sid) l = Some s ->
  Server.completed s = false ->
  length (finished gid (List.map (completing now sid) l))
    = (length (finished gid l)
       + (if Nat.eqb (Server.groupId s) gid then 1 else 0))%nat.
Proof.
  induction l as [|x l IH]; [discriminate|].
  rewrite fmap_cons, NoDup_cons. cbn [List.find List.map].
  intros [Hx Hnd] Hfind Hs.
  destruct (Nat.eqb (Server.subtaskId x) sid) eqn:E.
  - injection Hfind as ->. apply Nat.eqb_eq in E.
    rewrite completing_absent.
    + unfold finished, members, completing. simpl.
      rewrite (proj2 (Nat.eqb_eq _ _) E). simpl.
      destruct (Nat.eqb (Server.groupId s) gid); simpl; [|lia].
      rewrite Hs. simpl. lia.
    + apply Forall_forall. intros y Hy Heq. apply Hx.
      apply list_elem_of_fmap. exists y. split; [congruence | done].
  - specialize (IH Hnd Hfind Hs).
    assert (Hcx : completing now sid x = x)
      by (unfold completing; by rewrite E).
    unfold finished, members in *. simpl. rewrite Hcx.
    destruct (Nat.eqb (Server.groupId x) gid); simpl; [|exact IH].
    destruct (Server.completed x); simpl; [|exact IH].
    by rewrite IH.
Qed.

Lemma find_map_same {A} (p : A -> bool) (f : A -> A) (l : list A) :
  (forall x, p (f x) = p x) ->
  List.find p (List.map f l) = f <$> List.find p l.
Proof.
  intros Hp. induction l as [|x l IH]; [done|]. simpl. rewrite Hp.
  by destruct (p x).
Qed.

(** What a first completion does to the store. *)
Lemma completeSubtask_first now sid db s g :
  List.find (fun x => Nat.eqb (Server.subtaskId x) sid) (Server.subtasks db) = Some s ->
  List.find (fun x => Nat.eqb (Server.id x) (Server.groupId s)) (Server.groups db) = Some g ->
  Server.completed s = false ->
  Server.completeSubtask now sid db
    = ({| Server.groups := List.map (advancing (Server.groupId s)) (Server.groups db);
          Server.subtasks := List.map (completing now sid) (Server.subtasks db);
          Server.nextId := Server.nextId db |},
       Server.Ok (Server.advance g)).
Proof.
  intros Hs Hg Hc. unfold Server.completeSubtask. by rewrite Hs, Hg, Hc.
Qed.

(** In every other case the store is left alone. *)
Lemma completeSubtask_cases now sid db :
  (exists s g,
      List.find (fun x => Nat.eqb (Server.subtaskId x) sid) (Server.subtasks db) = Some s
      /\ List.find (fun x => Nat.eqb (Server.id x) (Server.groupId s)) (Server.groups db) = Some g
      /\ Server.completed s = false)
  \/ fst (Server.completeSubtask now sid db) = db.
Proof.
  unfold Server.completeSubtask.
  destruct (List.find _ (Server.subtasks db)) as [s|] eqn:Hs; [|by right].
  destruct (List.find _ (Server.groups db)) as [g|] eqn:Hg; [|by right].
  destruct (Server.completed s) eqn:Hc; [by right|].
  left. by exists s, g.
Qed.

Lemma consistent_empty : consistent Server.emptyStore.
Proof.
  unfold consistent. simpl. repeat split; constructor.
Qed.

Lemma consistent_complete now sid db :
  consistent db -> consistent (fst (Server.completeSubtask now sid db)).
Proof.
  intros Hdb.
  destruct (completeSubtask_cases now sid db) as [(s & g & Hs & Hg & Hc)|Heq];
    [|by rewrite Heq].
  rewrite (completeSubtask_first now sid db s g Hs Hg Hc). simpl.
  destruct Hdb as (Hsub & Hgrp & Hnds & Hndg & Hacc).
  unfold consistent. simpl. repeat split.
  - apply Forall_fmap. eapply Forall_impl; [exact Hsub|]. simpl.
    intros x. by rewrite completing_id, completing_group.
  - apply Forall_fmap. eapply Forall_impl; [exact Hgrp|]. simpl.
    intros x. by rewrite advancing_id.
  - rewrite <- list_fmap_compose.
    erewrite list_fmap_ext; [exact Hnds|]. intros i x _. simpl.
    apply completing_id.
  - rewrite <- list_fmap_compose.
    erewrite list_fmap_ext; [exact Hndg|]. intros i x _. simpl.
    apply advancing_id.
  - apply Forall_fmap. eapply Forall_impl; [exact Hacc|]. simpl.
    intros x (Ht & Hd & Hp). unfold accounted.
    rewrite advancing_id.
    rewrite (finished_completing now sid (Server.id x) s _ Hnds Hs Hc).
    rewrite members_completing, length_map.
    unfold advancing. rewrite (Nat.eqb_sym (Server.groupId s)).
    destruct (Nat.eqb (Server.id x) (Server.groupId s)); simpl.
    + repeat split; [done | lia].
    + repeat split; [done | lia | done].
Qed.

Lemma finished_app gid l k :
  finished gid (l ++ k) = finished gid l ++ finished gid k.
Proof. unfold finished. by rewrite members_app, List.filter_app. Qed.

Lemma materialize_empty fault now r db :
  Client.suggested_subtasks r = [] ->
  Server.materializeGroup fault now r db
    = (db, Server.Failed Server.EmptySelectionError).
Proof.
  unfold Server.materializeGroup. by intros ->.
Qed.

Lemma consistent_extended db g subs n :
  consistent db ->
  Server.id g = Server.nextId db ->
  Server.totalSubtasks g = Z.of_nat n ->
  Server.completedSubtasks g = 0 ->
  Server.progressPercentage g
    = Server.progressOf (Server.completedSubtasks g) (Server.totalSubtasks g) ->
  Forall (fun s => Server.groupId s = Server.nextId db
                   /\ Server.completed s = false) subs ->
  Server.subtaskId <$> subs = seq (S (Server.nextId db)) n ->
  consistent (extended db g subs).
Proof.
  intros (Hsub & Hgrp & Hnds & Hndg & Hacc) Hid Htot Hzero Hprog Hnew Hids.
  assert (Hlen : length subs = n).
  { apply (f_equal (@length _)) in Hids.
    by rewrite length_fmap, length_seq in Hids. }
  assert (Hrange : Forall (fun s => (Server.nextId db < Server.subtaskId s
                                     < S (Server.nextId db) + n)%nat) subs).
  { apply Forall_forall. intros s Hs.
    assert (Hin : Server.subtaskId s ∈ seq (S (Server.nextId db)) n).
    { rewrite <- Hids. apply list_elem_of_fmap. by exists s. }
    apply elem_of_seq in Hin. lia. }
  assert (Hold : Forall (fun s => Server.groupId s <> Server.nextId db)
                        (Server.subtasks db)).
  { eapply Forall_impl; [exact Hsub|]. simpl. lia. }
  assert (Hmine : Forall (fun s => Server.groupId s = Server.nextId db) subs).
  { eapply Forall_impl; [exact Hnew|]. simpl. by intros s [? _]. }
  unfold consistent, extended. simpl. rewrite Hlen. repeat split.
  - apply Forall_app. split.
    + eapply Forall_impl; [exact Hsub|]. simpl. lia.
    + rewrite Forall_forall in Hrange, Hnew. apply Forall_forall.
      intros s Hs. specialize (Hrange s Hs). destruct (Hnew s Hs) as [Hg _].
      lia.
  - apply Forall_app. split.
    + eapply Forall_impl; [exact Hgrp|]. simpl. lia.
    + constructor; [lia | constructor].
  - rewrite fmap_app. apply NoDup_app. split; [exact Hnds|]. split.
    + intros x Hx. rewrite Hids, elem_of_seq.
      apply list_elem_of_fmap in Hx. destruct Hx as (s & -> & Hs).
      rewrite Forall_forall in Hsub. destruct (Hsub s Hs). lia.
    + rewrite Hids. apply NoDup_seq.
  - rewrite fmap_app. apply NoDup_app. split; [exact Hndg|]. split.
    + intros x Hx. simpl. rewrite list_elem_of_singleton.
      apply list_elem_of_fmap in Hx. destruct Hx as (g0 & -> & Hg0).
      rewrite Forall_forall in Hgrp. specialize (Hgrp g0 Hg0). lia.
    + simpl. apply NoDup_singleton.
  - apply Forall_app. split.
    + rewrite Forall_forall in Hacc, Hgrp. apply Forall_forall.
      intros g0 Hg0. destruct (Hacc g0 Hg0) as (Ht & Hc & Hp).
      specialize (Hgrp g0 Hg0). unfold accounted.
      rewrite finished_app, members_app.
      assert (Hnone : members (Server.id g0) subs = []).
      { apply members_none. eapply Forall_impl; [exact Hmine|]. simpl. lia. }
      unfold finished at 2. rewrite Hnone. simpl. rewrite !app_nil_r.
      by repeat split.
    + constructor; [|constructor]. unfold accounted.
      rewrite finished_app, members_app, Hid.
      unfold finished. rewrite (members_none _ _ Hold), (members_all _ _ Hmine).
      simpl. rewrite filter_all_false.
      * rewrite Hlen, Htot, Hzero. simpl. repeat split.
        by rewrite Hprog, Htot, Hzero.
      * eapply Forall_impl; [exact Hnew|]. simpl. by intros s [_ ?].
Qed.

Lemma consistent_materialize fault now r db :
  consistent db -> consistent (fst (Server.materializeGroup fault now r db)).
Proof.
  intros Hdb.
  destruct (Client.suggested_subtasks r) as [|o rest] eqn:Hs.
  - by rewrite materialize_empty.
  - destruct (materialize_cases fault now r db)
      as [(g & subs & Hm & Hid & _ & Htot & Hzero & Hprog & Hcopy & Hids & _)
         |(k & partial & _ & _ & _ & _ & Hm)];
      [by rewrite Hs | | by rewrite Hm, discard_fresh].
    rewrite Hm. simpl.
    eapply consistent_extended; eauto.
    eapply Forall2_Forall_r; [exact Hcopy|].
    apply Forall_true. by intros x s (_ & ? & ? & _).
Qed.

Lemma consistent_step db op : consistent db -> consistent (Server.step db op).
Proof.
  destruct op; simpl; [apply consistent_materialize | apply consistent_complete].
Qed.

Lemma consistent_fold ops : forall db,
  consistent db -> consistent (fold_left Server.step ops db).
Proof.
  induction ops as [|op ops IH]; intros db Hdb; simpl; [done|].
  apply IH. by apply consistent_step.
Qed.

Lemma consistent_runOps ops : consistent (Server.runOps ops).
Proof. apply consistent_fold, consistent_empty. Qed.

Lemma consistent_completeAll calls : forall db,
  consistent db -> consistent (completeAll calls db).
Proof.
  induction calls as [|c calls IH]; intros db Hdb; [done|].
  unfold completeAll in *. simpl. apply IH. by apply consistent_complete.
Qed.

(** C2. Progress invariant. Take any store the operations lead to
    (materializations, with or without faults, and completions, in any
    order) and any further run of [completeSubtask] calls: after each call
    of the run, every group has [progressPercentage] equal to
    [100 * completedSubtasks / totalSubtasks], and
    [0 <= completedSubtasks <= totalSubtasks]. *)
Theorem progress_invariant (ops : list Server.Op)
    (calls : list (Server.timestamp * Server.ident)) (k : nat) :
  Forall progress_ok
         (Server.groups (completeAll (take k calls) (Server.runOps ops))).
Proof.
  pose proof (consistent_completeAll (take k calls) _ (consistent_runOps ops))
    as (_ & _ & _ & _ & Hacc).
  eapply Forall_impl; [exact Hacc|]. apply accounted_progress.
Qed.

(** C5. Completion is idempotent: a second [completeSubtask] of the same
    subtask, at whatever time, leaves the store the first call produced as
    it is, so every group's [completedSubtasks] is what it was after the
    first call, and the second call reports what the first reported. *)
Theorem completeSubtask_idempotent (db : Server.Store)
    (sid : Server.ident) (t1 t2 : Server.timestamp) :
  Server.completeSubtask t2 sid (fst (Server.completeSubtask t1 sid db))
    = Server.completeSubtask t1 sid db
  /\ Server.completedSubtasks <$>
       Server.groups
         (fst (Server.completeSubtask t2 sid (fst (Server.completeSubtask t1 sid db))))
     = Server.completedSubtasks <$>
         Server.groups (fst (Server.completeSubtask t1 sid db)).
Proof.
  assert (H : Server.completeSubtask t2 sid (fst (Server.completeSubtask t1 sid db))
              = Server.completeSubtask t1 sid db).
  { unfold Server.completeSubtask at 2 3.
    destruct (List.find _ (Server.subtasks db)) as [s|] eqn:Hs.
    2:{ simpl. unfold Server.completeSubtask. by rewrite Hs. }
    destruct (List.find _ (Server.groups db)) as [g|] eqn:Hg.
    2:{ simpl. unfold Server.completeSubtask. by rewrite Hs, Hg. }
    destruct (Server.completed s) eqn:Hc.
    { simpl. unfold Server.completeSubtask. by rewrite Hs, Hg, Hc. }
    simpl. unfold Server.completeSubtask. simpl.
    change (fun x => if Nat.eqb (Server.subtaskId x) sid
                     then Server.markCompleted t1 x else x)
      with (completing t1 sid).
    change (fun x => if Nat.eqb (Server.id x) (Server.groupId s)
                     then Server.advance x else x)
      with (advancing (Server.groupId s)).
    rewrite (find_map_same _ (completing t1 sid)), Hs
      by (intros x; by rewrite completing_id).
    simpl. rewrite completing_group.
    rewrite (find_map_same _ (advancing (Server.groupId s))), Hg
      by (intros x; by rewrite advancing_id).
    simpl.
    assert (Hsid : Nat.eqb (Server.subtaskId s) sid = true)
      by (by destruct (find_some _ _ Hs)).
    assert (Hgid : Nat.eqb (Server.id g) (Server.groupId s) = true)
      by (by destruct (find_some _ _ Hg)).
    assert (Hcs : completing t1 sid s = Server.markCompleted t1 s)
      by (unfold completing; by rewrite Hsid).
    assert (Hag : advancing (Server.groupId s) g = Server.advance g)
      by (unfold advancing; by rewrite Hgid).
    by rewrite Hcs, Hag. }
  split; [exact H | by rewrite H].
Qed.

(** C1. Materialization is all-or-nothing. In a store the operations lead
    to, and for a state with at least one selected suggestion,
    [materializeGroup] either extends the store by exactly one group, whose
    [totalSubtasks] is the number of selected suggestions, and by exactly
    that many subtasks, all of that group (which is what happens when no
    fault strikes within the batch), or, when a fault strikes at the write
    numbered [k] of the batch, fails with [PersistenceError] and leaves the
    store exactly as it was: the [k] rows the batch had written by then
    are in the store at the moment of the fault, and none of them is in
    the store [materializeGroup] returns. *)
Theorem materialization_all_or_nothing url fault now (ops : list Server.Op)
    (st : Client.State) objs :
  candidates st = Some objs -> chosen objs <> [] ->
  (exists g subs res,
      materializeGroup url fault now st (Server.runOps ops)
        = (extended (Server.runOps ops) g subs,
           Some (Server.Ok {| Server.newGroupId := Server.id g;
                              Server.subtasksCreated := length subs |}),
           res)
      /\ Server.totalSubtasks g = Z.of_nat (length (chosen objs))
      /\ length subs = length (chosen objs)
      /\ Forall (fun s => Server.groupId s = Server.id g) subs
      /\ (fault = None
          \/ exists k, fault = Some k /\ (length (chosen objs) < k)%nat))
  \/ (exists k p partial res,
        fault = Some k /\ (k <= length (chosen objs))%nat
        /\ sentPayload url st = Some p
        /\ Server.writeRows fault (Server.rowsOf now p (Server.runOps ops))
                            (Server.runOps ops)
           = (partial, false)
        /\ records partial = (records (Server.runOps ops) + k)%nat
        /\ materializeGroup url fault now st (Server.runOps ops)
           = (Server.runOps ops,
              Some (Server.Failed Server.PersistenceError), res)).
Proof.
  intros Hc Hne.
  destruct (materializeGroup_sent url fault now st (Server.runOps ops) objs Hc Hne)
    as (r & Hr & Hsent & ->).
  destruct (materialize_cases fault now
              (Client.with_subtasks r (chosen objs)) (Server.runOps ops) Hne)
    as [(g & subs & Hm & Hid & _ & Htot & _ & _ & Hcopy & _ & Hf)
       |(k & partial & Hk & Hle & Hw & Hrec & Hm)];
    rewrite Hm; simpl.
  - left. exists g, subs. eexists. simpl in Htot, Hcopy, Hf.
    assert (Hlen : length subs = length (chosen objs))
      by (symmetry; eapply Forall2_length; exact Hcopy).
    split; [by rewrite Hid, Hlen|]. repeat split; try done.
    eapply Forall2_Forall_r; [exact Hcopy|].
    apply Forall_true. intros o s (_ & Hg & _). congruence.
  - right. exists k, (Client.with_subtasks r (chosen objs)), partial.
    eexists. simpl in Hle.
    split; [done|]. split; [done|]. split; [done|]. split; [done|].
    split; [done|]. by rewrite (discard_fresh _ (consistent_runOps ops)).
Qed.

(** ** Order of the created subtasks *)

Lemma chosen_sublist {B} (f : Client.SubTaskSuggestion -> B) objs :
  sublist (f <$> chosen objs) (f <$> objs).
Proof.
  induction objs as [|o objs IH]; [constructor|].
  unfold chosen in *. cbn [List.filter]. destruct (Client.selected o).
  - rewrite !fmap_cons. by constructor.
  - rewrite fmap_cons. by constructor.
Qed.





(** ** The worked decomposition, step by step *)

Lemma blankForm_blank : whitespace_only (Client.mainTask blankForm).
Proof. repeat constructor. Defined.

Lemma blogForm_not_blank : ~ whitespace_only (Client.mainTask blogForm).
Proof. intros H. inversion H. discriminate. Defined.

Lemma blogState_wf : wf blogState.
Proof.
  split.
  - apply (bool_decide_unpack _). vm_compute. exact I.
  - apply (bool_decide_unpack _). vm_compute. exact I.
Defined.

Lemma blogState_candidates : candidates blogState = Some blogSuggestions.
Proof. vm_compute. reflexivity. Defined.

Lemma blogEdited_candidates :
  candidates blogEdited = Some (toggled 2 blogSuggestions).
Proof. vm_compute. reflexivity. Defined.

Lemma blogEdited_chosen : chosen (toggled 2 blogSuggestions) <> [].
Proof. discriminate. Defined.

Lemma blogCleared_candidates :
  candidates blogCleared = Some (Client.flip <$> blogSuggestions).
Proof. vm_compute. reflexivity. Defined.

Lemma blogCleared_none_selected :
  Forall (fun o => Client.selected o = false) (Client.flip <$> blogSuggestions).
Proof. repeat constructor. Defined.

(** The selection after the user's edit, and the group it becomes. *)
Example blogEdited_selection :
  selection blogEdited = Some [true; true; false; true; true].
Proof. vm_compute. reflexivity. Qed.

Example blogStore_group :
  (fun g => (Server.totalSubtasks g, Server.completedSubtasks g))
    <$> Server.groups blogStore = [(4, 0)]
  /\ Server.order <$> Server.listSubtasks 0%nat blogStore = [0; 1; 3; 4].
Proof. vm_compute. split; reflexivity. Qed.

(** Completing two of the four subtasks, one of them twice, gives 50%. *)
Example blogStore_half_way :
  exists g,
    Server.groups (completeAll [(8, 1); (9, 3); (10, 3)]%nat blogStore) = [g]
    /\ Server.completedSubtasks g = 2
    /\ (Server.progressPercentage g == 50)%Q
    /\ Server.isActive g = true.
Proof. eexists. vm_compute. repeat split; reflexivity. Qed.

(** A fault at the third write of the batch: the group and the first
    subtask are in the store when it strikes, and nothing is left of them
    in the end. *)
Example blogStore_fault :
  (exists p partial,
      sentPayload localhost blogEdited = Some p
      /\ Server.writeRows (Some 2%nat) (Server.rowsOf 7%nat p Server.emptyStore)
                          Server.emptyStore
         = (partial, false)
      /\ length (Server.groups partial) = 1%nat
      /\ Server.order <$> Server.subtasks partial = [0])
  /\ (materializeGroup localhost (Some 2%nat) 7%nat blogEdited Server.emptyStore).1
     = (Server.emptyStore, Some (Server.Failed Server.PersistenceError)).
Proof.
  split; [|vm_compute; reflexivity].
  eexists _, _. split; [vm_compute; reflexivity|].
  split; [vm_compute; reflexivity|]. split; vm_compute; reflexivity.
Qed.

(** An index past the end makes the toggle throw, the state untouched. *)
Example blogState_toggle_past_end :
  Client.toggleSubtaskSelection 5 blogState = (blogState, [], Client.TypeError)
  /\ Client.toggleSubtaskSelection (-1) blogState = (blogState, [], Client.TypeError).
Proof. split; reflexivity. Qed.

(** Suggestions that arrive out of order are created in the order they
    arrive in. *)
Example unordered_result_kept_as_sent :
  let r := {| Client.main_task := js "t";
              Client.suggested_subtasks :=
                [Client.enhance (wire "b" 1 1 2 [] None);
                 Client.enhance (wire "a" 1 1 1 [] None)];
              Client.total_estimated_duration := 2;
              Client.completion_strategy := [];
              Client.ai_confidence := 1%Q |} in
  Server.order <$>
    Server.listSubtasks 0%nat
      (Server.materializeGroup None 0%nat r Server.emptyStore).1
  = [2; 1].
Proof. vm_compute. reflexivity. Qed.

(** ** Instances of the theorems *)

Lemma analyzeTask_rejects_blank_witness :
  whitespace_only (Client.mainTask blankForm)
  /\ Client.analyzeTask localhost notANumber blankForm
       = Client.Finished (blankForm, [validationAlert], Client.Returned)
  /\ forall net,
       Client.run (Client.analyzeTask localhost notANumber blankForm) net
         = (blankForm, [validationAlert], Client.Returned)
       /\ Client.requests
            (Client.run (Client.analyzeTask localhost notANumber blankForm) net)
          = [].
Proof.
  split; [exact blankForm_blank|].
  exact (analyzeTask_rejects_blank localhost notANumber blankForm blankForm_blank).
Defined.

Lemma null_response_guard_witness :
  Client.crusherResponse blogForm = None
  /\ (forall index,
        Client.toggleSubtaskSelection index blogForm
          = (blogForm, [], Client.Returned))
  /\ Client.createTaskGroup localhost blogForm
       = Client.Finished (blogForm, [], Client.Returned)
  /\ forall fault now db,
       materializeGroup localhost fault now blogForm db
         = (db, None, (blogForm, [], Client.Returned)).
Proof.
  split; [reflexivity|].
  exact (null_response_guard localhost blogForm eq_refl).
Defined.

Lemma createTaskGroup_rejects_empty_selection_witness :
  candidates blogCleared = Some (Client.flip <$> blogSuggestions)
  /\ Forall (fun o => Client.selected o = false) (Client.flip <$> blogSuggestions)
  /\ Client.createTaskGroup localhost blogCleared
       = Client.Finished (blogCleared, [emptySelectionAlert], Client.Returned)
  /\ (forall net,
        Client.requests
          (Client.run (Client.createTaskGroup localhost blogCleared) net) = [])
  /\ forall fault now db,
       materializeGroup localhost fault now blogCleared db
         = (db, None, (blogCleared, [emptySelectionAlert], Client.Returned)).
Proof.
  split; [exact blogCleared_candidates|].
  split; [exact blogCleared_none_selected|].
  exact (createTaskGroup_rejects_empty_selection localhost blogCleared _
           blogCleared_candidates blogCleared_none_selected).
Defined.

Lemma analyzeTask_selects_all_witness :
  ~ whitespace_only (Client.mainTask blogForm)
  /\ exists req st' r objs,
       Client.run (Client.analyzeTask localhost notANumber blogForm)
                  (Client.HttpResponse true (Some blogAnswer))
         = (st', [Client.Fetch req; Client.HapticSuccess], Client.Returned)
       /\ Client.crusherResponse st' = Some r
       /\ r = Client.with_subtasks blogAnswer (Client.suggested_subtasks r)
       /\ candidates st' = Some objs
       /\ objs = Client.enhance <$> Client.suggested_subtasks blogAnswer
       /\ Forall (fun o => Client.selected o = true) objs
       /\ wf st'.
Proof.
  split; [exact blogForm_not_blank|].
  exact (analyzeTask_selects_all localhost notANumber blogForm blogAnswer
           blogForm_not_blank).
Defined.

Lemma toggle_flips_exactly_one_witness :
  wf blogState
  /\ candidates blogState = Some blogSuggestions
  /\ (forall i o, blogSuggestions !! i = Some o ->
        exists st',
          Client.toggleSubtaskSelection (Z.of_nat i) blogState
            = (st', [], Client.Returned)
          /\ candidates st' = Some (<[i := Client.flip o]> blogSuggestions)
          /\ same_content o (Client.flip o)
          /\ Client.selected (Client.flip o) = negb (Client.selected o)
          /\ Client.crusherResponse st' = Client.crusherResponse blogState
          /\ form_of st' = form_of blogState
          /\ wf st')
  /\ (forall target : list bool,
        length target = length blogSuggestions ->
        exists indices objs',
          candidates (toggles indices blogState) = Some objs'
          /\ selection (toggles indices blogState) = Some target
          /\ Forall2 same_content blogSuggestions objs'
          /\ Client.crusherResponse (toggles indices blogState)
               = Client.crusherResponse blogState
          /\ form_of (toggles indices blogState) = form_of blogState).
Proof.
  split; [exact blogState_wf|]. split; [exact blogState_candidates|].
  exact (toggle_flips_exactly_one blogState blogSuggestions
           blogState_wf blogState_candidates).
Defined.

Lemma materialization_all_or_nothing_witness :
  candidates blogEdited = Some (toggled 2 blogSuggestions)
  /\ chosen (toggled 2 blogSuggestions) <> []
  /\ ((exists g subs res,
          materializeGroup localhost (Some 2%nat) 7%nat blogEdited (Server.runOps [])
            = (extended (Server.runOps []) g subs,
               Some (Server.Ok {| Server.newGroupId := Server.id g;
                                  Server.subtasksCreated := length subs |}),
               res)
          /\ Server.totalSubtasks g
               = Z.of_nat (length (chosen (toggled 2 blogSuggestions)))
          /\ length subs = length (chosen (toggled 2 blogSuggestions))
          /\ Forall (fun s => Server.groupId s = Server.id g) subs
          /\ (Some 2%nat = None
              \/ exists k, Some 2%nat = Some k
                   /\ (length (chosen (toggled 2 blogSuggestions)) < k)%nat))
      \/ (exists k p partial res,
            Some 2%nat = Some k
            /\ (k <= length (chosen (toggled 2 blogSuggestions)))%nat
            /\ sentPayload localhost blogEdited = Some p
            /\ Server.writeRows (Some 2%nat)
                  (Server.rowsOf 7%nat p (Server.runOps [])) (Server.runOps [])
               = (partial, false)
            /\ records partial = (records (Server.runOps []) + k)%nat
            /\ materializeGroup localhost (Some 2%nat) 7%nat blogEdited
                 (Server.runOps [])
               = (Server.runOps [],
                  Some (Server.Failed Server.PersistenceError), res))).
Proof.
  split; [exact blogEdited_candidates|]. split; [exact blogEdited_chosen|].
  exact (materialization_all_or_nothing localhost (Some 2%nat) 7%nat []
           blogEdited _ blogEdited_candidates blogEdited_chosen).
Defined.

Lemma materialization_postcondition_witness :
  candidates blogEdited = Some (toggled 2 blogSuggestions)
  /\ chosen (toggled 2 blogSuggestions) <> []
  /\ (exists p, sentPayload localhost blogEdited = Some p
                /\ Client.suggested_subtasks p
                   = chosen (toggled 2 blogSuggestions))
  /\ (forall fault db' m res,
        materializeGroup localhost fault 7%nat blogEdited Server.emptyStore
          = (db', Some (Server.Ok m), res) ->
        exists g subs,
          db' = extended Server.emptyStore g subs
          /\ Server.newGroupId m = Server.id g
          /\ Server.subtasksCreated m = length (chosen (toggled 2 blogSuggestions))
          /\ Server.totalSubtasks g
               = Z.of_nat (length (chosen (toggled 2 blogSuggestions)))
          /\ Server.completedSubtasks g = 0
          /\ Forall2 copied (chosen (toggled 2 blogSuggestions)) subs
          /\ Forall (fun s => Server.groupId s = Server.id g
                              /\ Server.completed s = false) subs)
  /\ exists db' m res,
       materializeGroup localhost None 7%nat blogEdited Server.emptyStore
         = (db', Some (Server.Ok m), res).
Proof.
  split; [exact blogEdited_candidates|]. split; [exact blogEdited_chosen|].
  exact (materialization_postcondition localhost 7%nat blogEdited
           Server.emptyStore _ blogEdited_candidates blogEdited_chosen).
Defined.


(** * The rest of the screen *)

(** ** Numbers as text *)

Lemma js_inj a b : js a = js b -> a = b.
Proof.
  unfold js. intros H.
  rewrite <- (string_of_list_ascii_of_string a),
          <- (string_of_list_ascii_of_string b).
  f_equal. revert H.
  generalize (list_ascii_of_string a) (list_ascii_of_string b).
  induction l as [|x l IH]; intros [|y k]; simpl; try discriminate; [done|].
  intros [= Hxy Hlk]. f_equal; [|by apply IH].
  rewrite <- (ascii_N_embedding x), <- (ascii_N_embedding y). by rewrite Hxy.
Qed.

Lemma js_app a b : js (a ++ b) = js a ++ js b.
Proof.
  unfold js. induction a as [|c a IH]; simpl; [done|]. by rewrite IH.
Qed.

Lemma to_int_proper n :
  Z.to_int n <> Decimal.Pos Decimal.Nil /\ Z.to_int n <> Decimal.Neg Decimal.Nil.
Proof.
  destruct n as [|p|p]; simpl; split; try discriminate;
    intros [= H]; by apply (Unsigned.to_uint_nonnil p).
Qed.

Lemma numberToString_inj a b : numberToString a = numberToString b -> a = b.
Proof.
  unfold numberToString. intros H. apply js_inj in H.
  destruct (to_int_proper a) as [Ha1 Ha2], (to_int_proper b) as [Hb1 Hb2].
  pose proof (NilZero.isi _ Ha1 Ha2) as Ea.
  pose proof (NilZero.isi _ Hb1 Hb2) as Eb.
  rewrite H in Ea. rewrite Ea in Eb. injection Eb as Eb.
  rewrite <- (DecimalZ.of_to a), <- (DecimalZ.of_to b). by rewrite Eb.
Qed.

Lemma uint_digits d : Forall (fun c => isDigit c = true) (js (NilEmpty.string_of_uint d)).
Proof.
  induction d; simpl; try (constructor; [reflexivity | exact IHd]).
  constructor.
Qed.

Lemma numberToString_digits n :
  0 <= n ->
  Forall (fun c => isDigit c = true) (numberToString n)
  /\ numberToString n <> [].
Proof.
  intros Hn. unfold numberToString.
  destruct n as [|p|p]; [| |lia].
  - split; [repeat constructor | discriminate].
  - simpl. unfold NilZero.string_of_uint.
    pose proof (Unsigned.to_uint_nonnil p) as Hnil.
    destruct (Pos.to_uint p) eqn:E; [done|..];
      (split; [rewrite <- E at 1 | discriminate]);
      rewrite E; apply (uint_digits (_ _)).
Qed.

(** Two texts that start with digits and go on with something else agree
    only when the digits agree. *)
Lemma digits_then l1 : forall l2 x y r1 r2,
  Forall (fun c => isDigit c = true) l1 ->
  Forall (fun c => isDigit c = true) l2 ->
  isDigit x = false -> isDigit y = false ->
  l1 ++ x :: r1 = l2 ++ y :: r2 ->
  l1 = l2 /\ x = y /\ r1 = r2.
Proof.
  induction l1 as [|c l1 IH]; intros [|d l2] x y r1 r2 H1 H2 Hx Hy; simpl.
  - by intros [= -> ->].
  - intros [= -> _]. inversion H2; congruence.
  - intros [= -> _]. inversion H1; congruence.
  - intros [= -> H]. inversion H1; inversion H2; subst.
    destruct (IH l2 x y r1 r2) as (-> & -> & ->); done.
Qed.

(** ** Durations *)

Lemma isDigit_h : isDigit 104 = false. Proof. reflexivity. Qed.
Lemma isDigit_m : isDigit 109 = false. Proof. reflexivity. Qed.

Lemma formatDuration_short minutes :
  0 <= minutes < 60 ->
  Screen.formatDuration minutes = numberToString minutes ++ js "m".
Proof.
  intros H. unfold Screen.formatDuration.
  rewrite Z.div_small, Z.rem_small by lia. reflexivity.
Qed.

Lemma formatDuration_long minutes :
  60 <= minutes ->
  Screen.formatDuration minutes
    = numberToString (minutes / 60) ++ js "h "
        ++ numberToString (minutes mod 60) ++ js "m".
Proof.
  intros H. unfold Screen.formatDuration.
  assert (0 < minutes / 60) by (apply Z.div_str_pos; lia).
  destruct (Z.ltb_spec 0 (minutes / 60)); [|lia].
  by rewrite Z.rem_mod_nonneg by lia.
Qed.

(** X1. Durations from an hour on, up to [MAX_SAFE_INTEGER] minutes, are
    shown as hours and minutes that add up to the duration, with fewer than
    60 minutes; shorter ones as minutes alone. *)
Theorem formatDuration_parts (minutes : Z) :
  0 <= minutes <= MAX_SAFE_INTEGER ->
  (minutes < 60 ->
   Screen.formatDuration minutes = numberToString minutes ++ js "m")
  /\ (60 <= minutes ->
      exists h m,
        1 <= h /\ 0 <= m < 60 /\ minutes = 60 * h + m
        /\ Screen.formatDuration minutes
           = numberToString h ++ js "h " ++ numberToString m ++ js "m").
Proof.
  intros [H0 _]. split.
  - intros H. apply formatDuration_short. lia.
  - intros H. exists (minutes / 60), (minutes mod 60).
    pose proof (Z.mod_pos_bound minutes 60 ltac:(lia)).
    pose proof (Z.div_mod minutes 60 ltac:(lia)).
    assert (0 < minutes / 60) by (apply Z.div_str_pos; lia).
    repeat split; try lia. by apply formatDuration_long.
Qed.

(** X2. No two durations of zero to [MAX_SAFE_INTEGER] minutes are shown
    alike. *)
Theorem formatDuration_inj (a b : Z) :
  0 <= a <= MAX_SAFE_INTEGER -> 0 <= b <= MAX_SAFE_INTEGER ->
  Screen.formatDuration a = Screen.formatDuration b -> a = b.
Proof.
  intros [Ha _] [Hb _].
  assert (Hparts : forall n, 0 <= n ->
            0 <= n mod 60 /\ (60 <= n -> 0 <= n / 60)).
  { intros n Hn. pose proof (Z.mod_pos_bound n 60 ltac:(lia)).
    split; [lia|]. intros. apply Z.div_pos; lia. }
  destruct (Z.lt_ge_cases a 60) as [Sa|La], (Z.lt_ge_cases b 60) as [Sb|Lb].
  - rewrite !formatDuration_short by lia. intros H.
    apply app_inv_tail in H. by apply numberToString_inj.
  - rewrite (formatDuration_short a), (formatDuration_long b) by lia.
    destruct (numberToString_digits a Ha) as [Da _].
    destruct (numberToString_digits (b / 60)) as [Db _];
      [apply Z.div_pos; lia|].
    intros H.
    apply (digits_then _ _ 109%N 104%N [] _ Da Db isDigit_m isDigit_h) in H.
    destruct H as (_ & [=] & _).
  - rewrite (formatDuration_long a), (formatDuration_short b) by lia.
    destruct (numberToString_digits b Hb) as [Db _].
    destruct (numberToString_digits (a / 60)) as [Da _];
      [apply Z.div_pos; lia|].
    intros H.
    apply (digits_then _ _ 104%N 109%N _ [] Da Db isDigit_h isDigit_m) in H.
    destruct H as (_ & [=] & _).
  - rewrite !formatDuration_long by lia.
    destruct (numberToString_digits (a / 60)) as [Da _];
      [apply Z.div_pos; lia|].
    destruct (numberToString_digits (b / 60)) as [Db _];
      [apply Z.div_pos; lia|].
    intros H.
    apply (digits_then _ _ 104%N 104%N _ _ Da Db isDigit_h isDigit_h) in H.
    destruct H as (Hh & _ & Hm).
    apply numberToString_inj in Hh.
    change (js " " ++ numberToString (a mod 60) ++ js "m"
            = js " " ++ numberToString (b mod 60) ++ js "m") in Hm.
    apply app_inv_head, app_inv_tail, numberToString_inj in Hm.
    rewrite (Z.div_mod a 60), (Z.div_mod b 60) by lia. lia.
Qed.

(** X3. Below zero the hours are never shown: only the remainder is, so a
    duration and the one an hour shorter are shown alike. *)
Theorem formatDuration_negative (minutes : Z) :
  minutes < 0 ->
  Screen.formatDuration minutes = numberToString (Z.rem minutes 60) ++ js "m"
  /\ -60 < Z.rem minutes 60 <= 0
  /\ Screen.formatDuration (minutes - 60) = Screen.formatDuration minutes.
Proof.
  intros H.
  assert (Hneg : forall n, n < 0 ->
            Screen.formatDuration n = numberToString (Z.rem n 60) ++ js "m").
  { intros n Hn. unfold Screen.formatDuration.
    assert (n / 60 < 0) by (apply Z.div_lt_upper_bound; lia).
    destruct (Z.ltb_spec 0 (n / 60)); [lia | reflexivity]. }
  assert (Hopp : forall n, n < 0 -> Z.rem n 60 = - ((- n) mod 60)).
  { intros n Hn. replace n with (- - n) at 1 by lia.
    rewrite Z.rem_opp_l by lia. by rewrite Z.rem_mod_nonneg by lia. }
  pose proof (Z.mod_pos_bound (- minutes) 60 ltac:(lia)).
  assert (Hrem : Z.rem (minutes - 60) 60 = Z.rem minutes 60).
  { rewrite !Hopp by lia. f_equal.
    replace (- (minutes - 60)) with (- minutes + 1 * 60) by lia.
    apply Z_mod_plus_full. }
  split; [by apply Hneg|]. split.
  - rewrite Hopp by lia. lia.
  - by rewrite !Hneg, Hrem by lia.
Qed.

(** ** The theme *)

(** X4. A stored theme is read back: after a toggle whose save succeeds, a
    load (in this provider or a fresh one) gives the mode the toggle set,
    and the toggle has written no other key. *)
Theorem theme_round_trip (isDarkMode other : bool)
    (storage : gmap jsstring jsstring) :
  let '(mode, stored, logged) := Theme.toggleTheme isDarkMode storage false in
  mode = negb isDarkMode
  /\ logged = []
  /\ Theme.loadTheme other stored false = (mode, [])
  /\ Theme.launch stored false = mode
  /\ forall key, key <> js "theme" -> stored !! key = storage !! key.
Proof.
  unfold Theme.toggleTheme, Theme.launch, Theme.loadTheme. simpl.
  rewrite lookup_insert_eq. repeat split.
  - by destruct isDarkMode.
  - by destruct isDarkMode.
  - intros key Hkey. by rewrite lookup_insert_ne.
Qed.

(** X5. When the save fails the mode still changes in memory while storage
    keeps the old value, so the next launch comes up in the old mode. *)
Theorem theme_save_failure (isDarkMode : bool)
    (storage : gmap jsstring jsstring) :
  storage !! js "theme" = Some (if isDarkMode then js "dark" else js "light") ->
  let '(mode, stored, logged) := Theme.toggleTheme isDarkMode storage true in
  mode = negb isDarkMode
  /\ stored = storage
  /\ logged = [Client.ConsoleError (js "Error saving theme:")]
  /\ Theme.launch stored false = isDarkMode.
Proof.
  intros H. unfold Theme.toggleTheme, Theme.launch, Theme.loadTheme. simpl.
  rewrite H. repeat split. by destruct isDarkMode.
Qed.

(** X6. A fresh launch is in dark mode exactly when reading storage succeeds
    and the stored theme is the text [dark]; a missing value, any other
    text and a failed read all give light mode. *)
Theorem launch_dark_iff (storage : gmap jsstring jsstring) (fails : bool) :
  Theme.launch storage fails = true
  <-> fails = false /\ storage !! js "theme" = Some (js "dark").
Proof.
  unfold Theme.launch, Theme.loadTheme. destruct fails; simpl.
  - split; [discriminate | by intros [? _]].
  - destruct (storage !! js "theme") as [v|]; simpl.
    + rewrite bool_decide_eq_true. split; [by intros -> | by intros [_ [= ->]]].
    + split; [discriminate | by intros [_ ?]].
Qed.

(** X7. Two toggles bring the mode back, and with both saves succeeding the
    stored theme is that of the mode. *)
Theorem toggleTheme_twice (isDarkMode f1 f2 : bool)
    (storage : gmap jsstring jsstring) :
  let '(mode1, stored1, _) := Theme.toggleTheme isDarkMode storage f1 in
  let '(mode2, stored2, _) := Theme.toggleTheme mode1 stored1 f2 in
  mode2 = isDarkMode
  /\ (f2 = false ->
      stored2 !! js "theme"
        = Some (if isDarkMode then js "dark" else js "light")
      /\ Theme.launch stored2 false = isDarkMode).
Proof.
  unfold Theme.toggleTheme, Theme.launch, Theme.loadTheme.
  destruct f1, f2; simpl; rewrite ?negb_involutive;
    (split; [reflexivity|]); intros Hf; try discriminate;
    rewrite !lookup_insert_eq; by destruct isDarkMode.
Qed.

(** ** Difficulty colours *)

(** X8. In either theme the four difficulty levels have four different
    colours, that of [expert] is the same in both themes, and a level that
    is none of the four gets the theme's primary colour. *)
Theorem difficulty_colours (isDarkMode : bool) :
  (forall d1 d2 : Client.Difficulty,
      Screen.getDifficultyColor (Theme.colors isDarkMode) (Screen.levelName d1)
        = Screen.getDifficultyColor (Theme.colors isDarkMode) (Screen.levelName d2) ->
      d1 = d2)
  /\ Screen.getDifficultyColor (Theme.colors isDarkMode)
       (Screen.levelName Client.expert) = js "#8B5CF6"
  /\ forall level,
       (forall d, level <> Screen.levelName d) ->
       Screen.getDifficultyColor (Theme.colors isDarkMode) level
         = Theme.primary (Theme.colors isDarkMode).
Proof.
  split; [|split].
  - intros d1 d2. destruct isDarkMode, d1, d2; vm_compute;
      first [reflexivity | discriminate].
  - by destruct isDarkMode.
  - intros level Hl. unfold Screen.getDifficultyColor.
    rewrite !bool_decide_eq_false_2; [done|..].
    + apply (Hl Client.expert).
    + apply (Hl Client.hard).
    + apply (Hl Client.medium).
    + apply (Hl Client.easy).
Qed.

(** ** The handlers, outcome by outcome *)

Section HandlerFacts.

Variable BACKEND_URL : jsstring.
Variable parseInt : jsstring -> option Z.

(** X9. [analyzeTask] never throws, sends at most one request -- exactly one,
    a POST of the task as typed, when the task is not blank --, leaves the
    form inputs, the groups and the tab alone for every outcome, and once a
    request is out ends with [isAnalyzing] false. *)
Theorem analyzeTask_frame (st : Client.State)
    (net : Client.FetchOutcome (Client.TaskCrusherResponse Client.WireSubtask)) :
  let '(st', fx, c) := Client.run (Client.analyzeTask BACKEND_URL parseInt st) net in
  c = Client.Returned
  /\ (whitespace_only (Client.mainTask st) -> Client.requests (st', fx, c) = [])
  /\ (~ whitespace_only (Client.mainTask st) ->
      Client.isAnalyzing st' = false
      /\ exists b,
           Client.requests (st', fx, c)
             = [{| Client.url := BACKEND_URL ++ js "/api/task-crusher/analyze";
                   Client.method := js "POST";
                   Client.body := Client.AnalyzeBody b |}]
           /\ Client.req_main_task b = Client.mainTask st
           /\ Client.req_category b = js "personal")
  /\ (Client.mainTask st', Client.formDescription st', Client.difficulty st',
      Client.estimatedDuration st', Client.taskGroups st', Client.refreshing st',
      Client.loading st', Client.activeTab st')
     = (Client.mainTask st, Client.formDescription st, Client.difficulty st,
        Client.estimatedDuration st, Client.taskGroups st, Client.refreshing st,
        Client.loading st, Client.activeTab st).
Proof.
  unfold Client.analyzeTask.
  destruct (truthy (trim (Client.mainTask st))) eqn:E; simpl.
  - assert (Hnb : ~ whitespace_only (Client.mainTask st)).
    { intros H. apply truthy_trim_false in H. congruence. }
    destruct net as [|[|] [data|]]; simpl;
      try destruct (Client.alloc _ _) as [h refs]; simpl;
      (split; [reflexivity|]); (split; [done|]);
      (split; [|reflexivity]); intros _; (split; [reflexivity|]);
      eexists; (split; [reflexivity|]); split; reflexivity.
  - apply truthy_trim_false in E.
    split; [reflexivity|]. split; [done|]. split; [done | reflexivity].
Qed.

(** X10. When the decomposition fails -- the request rejects, the status is not
    ok, or the body cannot be used -- nothing of a result is kept: the
    state is the one before with [isAnalyzing] false, one alert headed
    [Error] is shown, and there is no success feedback. *)
Theorem analyzeTask_failure (st : Client.State)
    (net : Client.FetchOutcome (Client.TaskCrusherResponse Client.WireSubtask)) :
  ~ whitespace_only (Client.mainTask st) ->
  (forall data, net <> Client.HttpResponse true (Some data)) ->
  let '(st', fx, c) := Client.run (Client.analyzeTask BACKEND_URL parseInt st) net in
  st' = Client.setIsAnalyzing false st
  /\ (exists message, alerts fx = [(js "Error", message)])
  /\ (Client.HapticSuccess ∉ fx)
  /\ candidates st' = candidates st
  /\ Client.showAnalysisModal st' = Client.showAnalysisModal st.
Proof.
  intros Hnb Hfail. unfold Client.analyzeTask.
  destruct (truthy (trim (Client.mainTask st))) eqn:E;
    [|apply truthy_trim_false in E; contradiction].
  destruct net as [|[|] [data|]]; simpl;
    try (exfalso; by eapply Hfail);
    (split; [reflexivity|]); (split; [eexists; reflexivity|]);
    (split; [|split; reflexivity]);
    rewrite !elem_of_cons, elem_of_nil; intros H;
    repeat destruct H as [H|H]; try discriminate; done.
Qed.

(** X11. Loading the groups fails silently: [fetchTaskGroups] never throws and
    never shows an alert, changes nothing but [taskGroups], and changes
    that only when the status is ok and the body usable. *)
Theorem fetchTaskGroups_frame (st : Client.State)
    (net : Client.FetchOutcome (list Client.TaskGroup)) :
  let '(st', fx, c) := Client.run (Client.fetchTaskGroups BACKEND_URL st) net in
  c = Client.Returned
  /\ alerts fx = []
  /\ st' = Client.setTaskGroups (Client.taskGroups st') st
  /\ (forall data, net = Client.HttpResponse true (Some data) ->
      Client.taskGroups st' = data)
  /\ ((forall data, net <> Client.HttpResponse true (Some data)) -> st' = st).
Proof.
  destruct st.
  destruct net as [|[|] [data|]]; simpl; repeat split; try done;
    try (by intros ? [= <-]); intros H; exfalso; by eapply H.
Qed.

(** X12. Pull-to-refresh and the load on mount always come to an end: whatever
    the network does, [onRefresh] leaves [refreshing] false and [loadData]
    leaves [loading] false, without an alert, and beyond that flag they
    change what [fetchTaskGroups] changes. *)
Theorem refresh_and_load_settle (st : Client.State)
    (net : Client.FetchOutcome (list Client.TaskGroup)) :
  (let '(st', fx, c) := Client.run (Screen.onRefresh BACKEND_URL st) net in
   c = Client.Returned /\ alerts fx = []
   /\ Client.refreshing st' = false
   /\ st' = Screen.setRefreshing false
              (Client.run (Client.fetchTaskGroups BACKEND_URL st) net).1.1)
  /\ (let '(st', fx, c) := Client.run (Screen.loadData BACKEND_URL st) net in
      c = Client.Returned /\ alerts fx = []
      /\ Client.loading st' = false
      /\ st' = Screen.setLoading false
                 (Client.run (Client.fetchTaskGroups BACKEND_URL st) net).1.1).
Proof.
  destruct st. split; destruct net as [|[|] [data|]]; simpl; by repeat split.
Qed.

(** X13. [createTaskGroup] leaves the state as it is for every outcome, a
    successful creation included (the result is cleared by the alert's
    button, not by the handler), so a second press sends the request of
    the first once more. *)
Theorem createTaskGroup_frame (st : Client.State)
    (net net' : Client.FetchOutcome Client.CreateGroupResponse) :
  let '(st', fx, c) := Client.run (Client.createTaskGroup BACKEND_URL st) net in
  st' = st
  /\ Client.requests (Client.run (Client.createTaskGroup BACKEND_URL st') net')
     = Client.requests (st', fx, c).
Proof.
  assert (Hst : (Client.run (Client.createTaskGroup BACKEND_URL st) net).1.1 = st
                /\ Client.requests (Client.run (Client.createTaskGroup BACKEND_URL st) net')
                   = Client.requests (Client.run (Client.createTaskGroup BACKEND_URL st) net)).
  { unfold Client.createTaskGroup.
    destruct (Client.crusherResponse st) as [r|]; [|done].
    destruct (Client.deref _ _) as [objs|]; [|done].
    destruct (length _ =? 0)%nat; [done|].
    destruct net as [|[|] [data|]], net' as [|[|] [data'|]]; by simpl. }
  destruct (Client.run (Client.createTaskGroup BACKEND_URL st) net)
    as [[st' fx] c] eqn:E.
  simpl in Hst. destruct Hst as [-> Hreq]. split; [done|]. exact Hreq.
Qed.

End HandlerFacts.

(** ** Toggles, the create button and the request *)

Lemma flip_involutive o : Client.flip (Client.flip o) = o.
Proof. destruct o as [? ? ? ? ? ? b]. unfold Client.flip. simpl. by rewrite negb_involutive. Qed.

Lemma setCrusherResponse_same (st : Client.State) r :
  Client.crusherResponse st = Some r ->
  Client.setCrusherResponse (Some r) (Client.heap st) st = st.
Proof. destruct st. simpl. by intros ->. Qed.

Lemma setCrusherResponse_twice r1 h1 r2 h2 (st : Client.State) :
  Client.setCrusherResponse r2 h2 (Client.setCrusherResponse r1 h1 st)
    = Client.setCrusherResponse r2 h2 st.
Proof. reflexivity. Qed.

(** The state a toggle at the index of a suggestion leads to. *)
Lemma toggle_explicit (st : Client.State) r i l o :
  Client.crusherResponse st = Some r ->
  Client.suggested_subtasks r !! i = Some l ->
  Client.heap st !! l = Some o ->
  Client.toggleSubtaskSelection (Z.of_nat i) st
    = (Client.setCrusherResponse (Some r) (<[l := Client.flip o]> (Client.heap st)) st,
       [], Client.Returned).
Proof.
  intros Hr Hl Ho. unfold Client.toggleSubtaskSelection.
  by rewrite Hr, at_index_nat, Hl, Ho, with_subtasks_same.
Qed.

Lemma candidates_lookup (st : Client.State) objs i o :
  candidates st = Some objs -> objs !! i = Some o ->
  exists r l,
    Client.crusherResponse st = Some r
    /\ Client.suggested_subtasks r !! i = Some l
    /\ Client.heap st !! l = Some o.
Proof.
  unfold candidates. intros Hc Ho.
  destruct (Client.crusherResponse st) as [r|] eqn:Hr; [|discriminate].
  simpl in Hc. exists r.
  unfold Client.deref in Hc. rewrite mapM_Some in Hc.
  destruct (Forall2_lookup_r _ _ _ _ _ Hc Ho) as (l & Hl & Hh).
  exists l. by repeat split.
Qed.

(** X14. A second tap on a suggestion undoes the first: the state is the one
    before the two taps. *)
Theorem toggle_twice (st : Client.State) objs (i : nat) o :
  candidates st = Some objs -> objs !! i = Some o ->
  toggles [i; i] st = st.
Proof.
  intros Hc Ho.
  destruct (candidates_lookup st objs i o Hc Ho) as (r & l & Hr & Hl & Hh).
  unfold toggles. simpl.
  rewrite (toggle_explicit st r i l o Hr Hl Hh). simpl.
  rewrite (toggle_explicit _ r i l (Client.flip o)); simpl;
    [|done | done | apply lookup_insert_eq].
  rewrite flip_involutive, insert_insert_eq, insert_id by done.
  rewrite setCrusherResponse_twice. by apply setCrusherResponse_same.
Qed.

(** X15. Taps on two suggestions give the same state in either order. *)
Theorem toggles_commute (st : Client.State) objs (i j : nat) :
  wf st -> candidates st = Some objs ->
  (i < length objs)%nat -> (j < length objs)%nat ->
  toggles [i; j] st = toggles [j; i] st.
Proof.
  intros Hwf Hc Hi Hj.
  destruct (decide (i = j)) as [->|Hne]; [done|].
  destruct (lookup_lt_is_Some_2 objs i Hi) as [oi Hoi].
  destruct (lookup_lt_is_Some_2 objs j Hj) as [oj Hoj].
  destruct (candidates_lookup st objs i oi Hc Hoi) as (r & li & Hr & Hli & Hhi).
  destruct (candidates_lookup st objs j oj Hc Hoj) as (r' & lj & Hr' & Hlj & Hhj).
  assert (r' = r) as -> by congruence.
  assert (Hl : li <> lj).
  { intros ->. apply Hne. unfold wf in Hwf. rewrite Hr in Hwf.
    destruct Hwf as [Hnd _]. eapply NoDup_lookup; eauto. }
  unfold toggles. simpl.
  rewrite (toggle_explicit st r i li oi Hr Hli Hhi). simpl.
  rewrite (toggle_explicit st r j lj oj Hr Hlj Hhj). simpl.
  rewrite (toggle_explicit _ r j lj oj); simpl;
    [|done | done | by rewrite lookup_insert_ne].
  rewrite (toggle_explicit _ r i li oi); simpl;
    [|done | done | by rewrite lookup_insert_ne].
  rewrite !setCrusherResponse_twice. f_equal. by apply insert_insert_ne.
Qed.

Lemma chosen_insert_flip objs : forall i o,
  objs !! i = Some o ->
  (length (chosen (<[i := Client.flip o]> objs))
     + (if Client.selected o then 1 else 0)
   = length (chosen objs) + (if Client.selected o then 0 else 1))%nat.
Proof.
  unfold chosen.
  induction objs as [|x objs IH]; intros [|i] o Ho; simpl in *; try discriminate.
  - injection Ho as ->. destruct (Client.selected o); simpl; lia.
  - specialize (IH i o Ho). destruct (Client.selected x); simpl; lia.
Qed.

Lemma createButtonCount_candidates (st : Client.State) objs :
  candidates st = Some objs ->
  Screen.createButtonCount st = Some (length (chosen objs)).
Proof.
  unfold candidates, Screen.createButtonCount. intros Hc.
  destruct (Client.crusherResponse st) as [r|]; [|discriminate].
  simpl in *. by rewrite Hc.
Qed.

(** X16. A tap on a suggestion moves the number on the create button by exactly
    one, down when the suggestion was selected and up when it was not, and
    leaves the summary (number of suggestions, total time) as it was: the
    total shown is that of all suggestions, selected or not. *)
Theorem toggle_moves_count_by_one (st : Client.State) objs (i : nat) o :
  wf st -> candidates st = Some objs -> objs !! i = Some o ->
  let st' := (Client.toggleSubtaskSelection (Z.of_nat i) st).1.1 in
  Screen.createButtonCount st = Some (length (chosen objs))
  /\ Screen.createButtonCount st'
     = Some (if Client.selected o
             then (length (chosen objs) - 1)%nat
             else (length (chosen objs) + 1)%nat)
  /\ (Client.selected o = true -> (1 <= length (chosen objs))%nat)
  /\ Screen.summary st' = Screen.summary st.
Proof.
  intros Hwf Hc Ho.
  destruct (toggle_in_range st objs i o Hwf Hc Ho)
    as (st' & Hrun & Hc' & Hr' & _ & _).
  rewrite Hrun. simpl.
  pose proof (chosen_insert_flip objs i o Ho) as Hcount.
  split; [by apply createButtonCount_candidates|].
  rewrite (createButtonCount_candidates st' _ Hc').
  split; [|split].
  - f_equal. destruct (Client.selected o); lia.
  - intros Hsel. rewrite Hsel in Hcount. lia.
  - unfold Screen.summary. by rewrite Hr'.
Qed.

Section RequestFacts.

Variable BACKEND_URL : jsstring.

(** X17. With at least one suggestion selected, [createTaskGroup] sends one
    POST whose body has the selected suggestions, as many as the create
    button says, in their order and each with [selected] true, and the
    other fields of the decomposition result as they arrived: the total
    duration sent is that of all suggestions, not of the selected ones. *)
Theorem createTaskGroup_body (st : Client.State) objs
    (net : Client.FetchOutcome Client.CreateGroupResponse) :
  candidates st = Some objs -> chosen objs <> [] ->
  exists r b,
    Client.crusherResponse st = Some r
    /\ Client.requests (Client.run (Client.createTaskGroup BACKEND_URL st) net)
       = [{| Client.url := BACKEND_URL ++ js "/api/task-crusher/create-group";
             Client.method := js "POST";
             Client.body := Client.CreateGroupBody b |}]
    /\ Client.suggested_subtasks b = chosen objs
    /\ Forall (fun o => Client.selected o = true) (Client.suggested_subtasks b)
    /\ sublist (Client.suggested_subtasks b) objs
    /\ Screen.createButtonCount st = Some (length (Client.suggested_subtasks b))
    /\ (Client.main_task b, Client.total_estimated_duration b,
        Client.completion_strategy b, Client.ai_confidence b)
       = (Client.main_task r, Client.total_estimated_duration r,
          Client.completion_strategy r, Client.ai_confidence r).
Proof.
  intros Hc Hne.
  pose proof (createButtonCount_candidates st objs Hc) as Hcount.
  unfold candidates in Hc.
  destruct (Client.crusherResponse st) as [r|] eqn:Hr; [|discriminate].
  simpl in Hc.
  exists r, (Client.with_subtasks r (chosen objs)).
  split; [done|]. split.
  { unfold Client.createTaskGroup. rewrite Hr, Hc. fold (chosen objs).
    destruct (chosen objs) as [|x rest] eqn:Ech; [done|].
    cbn [length Nat.eqb]. destruct net as [|[|] [data|]]; reflexivity. }
  simpl. split; [done|]. split.
  { unfold chosen. apply Forall_forall. intros o Ho.
    apply list_elem_of_In, filter_In in Ho. by destruct Ho. }
  split.
  { pose proof (chosen_sublist (fun o => o) objs) as H.
    by rewrite !list_fmap_id in H. }
  split; done.
Qed.

(** X18. The create button says zero exactly when a press is turned down with
    the empty-selection alert. *)
Theorem createButton_zero_iff (st : Client.State) objs :
  candidates st = Some objs ->
  Screen.createButtonCount st = Some 0%nat
  <-> Client.createTaskGroup BACKEND_URL st
      = Client.Finished (st, [emptySelectionAlert], Client.Returned).
Proof.
  intros Hc. rewrite (createButtonCount_candidates st objs Hc).
  unfold candidates in Hc.
  destruct (Client.crusherResponse st) as [r|] eqn:Hr; [|discriminate].
  simpl in Hc. unfold Client.createTaskGroup. rewrite Hr, Hc.
  fold (chosen objs). destruct (chosen objs) as [|x rest]; simpl.
  - split; done.
  - split; discriminate.
Qed.

End RequestFacts.

(** ** The screen over time *)

Lemma createTaskGroup_state url (st : Client.State) net :
  (Client.run (Client.createTaskGroup url st) net).1.1 = st.
Proof.
  unfold Client.createTaskGroup.
  destruct (Client.crusherResponse st) as [r|]; [|done].
  destruct (Client.deref _ _) as [objs|]; [|done].
  destruct (length _ =? 0)%nat; [done|].
  by destruct net as [|[|] [data|]].
Qed.

Lemma wf_candidates (st : Client.State) r :
  wf st -> Client.crusherResponse st = Some r ->
  exists objs, candidates st = Some objs.
Proof.
  unfold wf, candidates. intros Hwf Hr. rewrite Hr in *. simpl.
  destruct Hwf as [_ Hall].
  induction (Client.suggested_subtasks r) as [|l ls IH].
  - by exists [].
  - inversion Hall as [|? ? [o Ho] Hrest]; subst.
    destruct (IH Hrest) as [objs Hobjs].
    exists (o :: objs). by apply deref_cons.
Qed.

(** A state with the same result, objects and modal, and with the two
    busy flags down, is settled when the first is. *)
Lemma settled_ext (st st' : Client.State) :
  Client.crusherResponse st' = Client.crusherResponse st ->
  Client.heap st' = Client.heap st ->
  Client.showAnalysisModal st' = Client.showAnalysisModal st ->
  Client.isAnalyzing st' = false ->
  Client.refreshing st' = false ->
  settled st -> settled st'.
Proof.
  unfold settled, wf, candidates.
  intros -> -> -> Ha Hf (Hwf & Hmodal & _ & _). by repeat split.
Qed.

Lemma wf_toggle_any index (st : Client.State) :
  wf st -> wf (Client.toggleSubtaskSelection index st).1.1.
Proof.
  intros Hwf. unfold Client.toggleSubtaskSelection.
  destruct (Client.crusherResponse st) as [r|] eqn:Hr; [|done].
  destruct (Client.at_index _ index) as [l|]; [|done].
  destruct (Client.heap st !! l) as [o|] eqn:Ho; [|done].
  unfold wf in *. rewrite Hr in Hwf. simpl.
  destruct Hwf as [Hnd Hall]. split; [done|].
  eapply Forall_impl; [exact Hall|]. simpl. intros l' [x Hx].
  destruct (decide (l = l')) as [->|Hne].
  - rewrite lookup_insert_eq. eauto.
  - rewrite lookup_insert_ne by done. eauto.
Qed.

Lemma toggle_any_cells index (st : Client.State) :
  let st' := (Client.toggleSubtaskSelection index st).1.1 in
  (Client.crusherResponse st' = None <-> Client.crusherResponse st = None)
  /\ Client.showAnalysisModal st' = Client.showAnalysisModal st
  /\ Client.isAnalyzing st' = Client.isAnalyzing st
  /\ Client.refreshing st' = Client.refreshing st.
Proof.
  unfold Client.toggleSubtaskSelection.
  destruct (Client.crusherResponse st) as [r|] eqn:Hr;
    [|simpl; rewrite ?Hr; by repeat split].
  destruct (Client.at_index _ index) as [l|];
    [|simpl; rewrite ?Hr; by repeat split].
  destruct (Client.heap st !! l) as [o|];
    [|simpl; rewrite ?Hr; by repeat split].
  simpl. by repeat split.
Qed.

Section TimeFacts.

Variable BACKEND_URL : jsstring.
Variable parseInt : jsstring -> option Z.

Lemma settled_handle (st : Client.State) (e : Screen.Event) :
  settled st -> settled (Screen.handle BACKEND_URL parseInt st e).
Proof.
  intros Hs. pose proof Hs as (Hwf & Hmodal & Han & Hre).
  destruct e as [s|s|s|d|t|net|index|net|net| |net|net]; simpl.
  - by apply (settled_ext st).
  - by apply (settled_ext st).
  - by apply (settled_ext st).
  - by apply (settled_ext st).
  - by apply (settled_ext st).
  - unfold Client.analyzeTask.
    destruct (truthy (trim (Client.mainTask st))); [|done].
    destruct net as [|[|] [data|]]; simpl;
      try (by apply (settled_ext st)).
    destruct (Client.alloc _ _) as [h refs] eqn:Ha. simpl.
    destruct (alloc_spec _ _ _ _ Ha) as (Hd & Hnd & _ & _).
    unfold settled, wf, candidates. simpl. repeat split; try done.
    + by eapply deref_is_Some.
    + intros _. eauto.
  - pose proof (wf_toggle_any index st Hwf) as Hwf'.
    destruct (toggle_any_cells index st) as (Hnone & Hm & Ha & Hr).
    unfold settled. rewrite Hm, Ha, Hr. repeat split; try done.
    intros Hshown. destruct (Hmodal Hshown) as [objs Hobjs].
    destruct (Client.crusherResponse
                (Client.toggleSubtaskSelection index st).1.1) as [r|] eqn:Hr'.
    + by apply (wf_candidates _ r).
    + assert (Hr0 : Client.crusherResponse st = None) by (by apply Hnone).
      unfold candidates in Hobjs. by rewrite Hr0 in Hobjs.
  - by rewrite createTaskGroup_state.
  - destruct net as [|[|] [data|]]; simpl;
      unfold settled, wf, candidates; simpl; by repeat split.
  - unfold settled, wf, candidates in *. simpl. by repeat split.
  - destruct net as [|[|] [data|]]; simpl; by apply (settled_ext st).
  - destruct net as [|[|] [data|]]; simpl; by apply (settled_ext st).
Qed.

(** X19. Whatever the user does and the network answers, with the handlers run
    one after the other: the suggestions held are distinct stored objects,
    the analysis modal is never open without a result to show, and no
    busy flag ([isAnalyzing], [refreshing]) is left up. *)
Theorem reach_settled (events : list Screen.Event) :
  settled (Screen.reach BACKEND_URL parseInt events).
Proof.
  unfold Screen.reach.
  assert (H : forall st, settled st ->
                settled (fold_left (Screen.handle BACKEND_URL parseInt) events st)).
  { induction events as [|e es IH]; intros st Hs; simpl; [done|].
    apply IH. by apply settled_handle. }
  apply H. unfold settled, wf, candidates. simpl. by repeat split.
Qed.

(** X20. The button of the success alert clears the result, the task and the
    description, though not the duration and the difficulty, closes the
    modal, opens the groups tab and refetches the groups; after it a tap on
    a suggestion and a press on create do nothing, and a press on analyze
    is turned down for want of a task. *)
Theorem viewTasks_clears (st : Client.State)
    (net : Client.FetchOutcome (list Client.TaskGroup)) :
  let '(st', fx, c) := Client.run (Client.viewTasks BACKEND_URL st) net in
  c = Client.Returned
  /\ Client.requests (st', fx, c)
     = [{| Client.url := BACKEND_URL ++ js "/api/task-crusher/groups";
           Client.method := js "GET"; Client.body := Client.NoBody |}]
  /\ (Client.crusherResponse st', Client.mainTask st', Client.formDescription st',
      Client.showAnalysisModal st', Client.activeTab st')
     = (None, [], [], false, Client.groups)
  /\ (Client.estimatedDuration st', Client.difficulty st')
     = (Client.estimatedDuration st, Client.difficulty st)
  /\ Client.analyzeTask BACKEND_URL parseInt st'
     = Client.Finished (st', [validationAlert], Client.Returned)
  /\ Client.createTaskGroup BACKEND_URL st'
     = Client.Finished (st', [], Client.Returned)
  /\ forall index,
       Client.toggleSubtaskSelection index st' = (st', [], Client.Returned).
Proof.
  destruct net as [|[|] [data|]]; simpl; by repeat split.
Qed.

End TimeFacts.

(** * The daily tasks *)

Section DailyFacts.

Variable BACKEND_URL : jsstring.
Variable parseInt : jsstring -> option Z.

(** X21. [createDailyTask] sends nothing and changes nothing when the title is
    blank or six tasks are loaded already; the blank title is reported
    first. Otherwise its first request is the POST of the task, with the
    title as typed and priority 3. *)
Theorem createDailyTask_guards (st : Daily.State)
    (post : Reply unit (option jsstring))
    (refetch : Reply (list Daily.DailyTask) unit) :
  let r := Daily.createDailyTask BACKEND_URL parseInt st post refetch in
  (whitespace_only (Daily.newTaskTitle st) ->
   r = (st, [Daily.Alert (js "Missing Information")
                         (js "Please enter a task title") []]))
  /\ (~ whitespace_only (Daily.newTaskTitle st) ->
      (6 <= length (Daily.dailyTasks st))%nat ->
      r = (st, [Daily.Alert (js "Limit Reached")
                            (js "You can only have up to 6 daily tasks") []]))
  /\ (~ whitespace_only (Daily.newTaskTitle st) ->
      (length (Daily.dailyTasks st) < 6)%nat ->
      exists b more,
        Daily.requests r
          = {| Daily.url := BACKEND_URL ++ js "/api/daily-tasks";
               Daily.method := js "POST";
               Daily.body := Daily.NewTaskBody b |} :: more
        /\ Daily.new_title b = Daily.newTaskTitle st
        /\ Daily.new_priority b = 3)
  /\ (Daily.requests r = []
      <-> whitespace_only (Daily.newTaskTitle st)
          \/ (6 <= length (Daily.dailyTasks st))%nat).
Proof.
  unfold Daily.createDailyTask.
  destruct (truthy (trim (Daily.newTaskTitle st))) eqn:E; cbn [negb].
  - assert (Hnb : ~ whitespace_only (Daily.newTaskTitle st)).
    { intros H. apply truthy_trim_false in H. congruence. }
    destruct (Nat.leb_spec 6 (length (Daily.dailyTasks st))) as [Hle|Hlt].
    + split; [done|]. split; [done|]. split; [lia|].
      split; [by right | done].
    + split; [done|]. split; [lia|]. split.
      * intros _ _.
        destruct post as [|json|[detail|]]; simpl;
          try destruct (Daily.fetchDailyTasks _ _ _) as [st' fx];
          eexists _, _; (split; [reflexivity|]); split; reflexivity.
      * split.
        -- destruct post as [|json|[detail|]]; simpl;
             try destruct (Daily.fetchDailyTasks _ _ _) as [st' fx];
             discriminate.
        -- intros [?|?]; [done | lia].
  - apply truthy_trim_false in E.
    split; [done|]. split; [done|]. split; [done|]. split; [by left | done].
Qed.

(** X22. Once the task is sent: on a success the form is cleared and the panel
    closed, the list is the reloaded one when the reload succeeds and the
    old one otherwise, and the success alert is shown either way; on any
    failure the state, with the text typed, is kept and one alert headed
    [Error] is shown, with the server's [detail] when it gave one. *)
Theorem createDailyTask_outcomes (st : Daily.State)
    (post : Reply unit (option jsstring))
    (refetch : Reply (list Daily.DailyTask) unit) :
  ~ whitespace_only (Daily.newTaskTitle st) ->
  (length (Daily.dailyTasks st) < 6)%nat ->
  let r := Daily.createDailyTask BACKEND_URL parseInt st post refetch in
  ((exists json, post = Succeeded json) ->
   r.1 = Daily.setDailyTasks (Daily.dailyTasks r.1) (Daily.clearForm st)
   /\ (forall data, refetch = Succeeded (Some data) -> Daily.dailyTasks r.1 = data)
   /\ ((forall data, refetch <> Succeeded (Some data)) ->
       Daily.dailyTasks r.1 = Daily.dailyTasks st)
   /\ Daily.alerts r = [(js "Success", js "Daily task added successfully!")]
   /\ length (Daily.requests r) = 2%nat)
  /\ ((forall json, post <> Succeeded json) ->
      r.1 = st
      /\ (exists message, Daily.alerts r = [(js "Error", message)])
      /\ length (Daily.requests r) = 1%nat
      /\ forall d, post = Refused (Some (Some d)) -> truthy d = true ->
           Daily.alerts r = [(js "Error", d)]).
Proof.
  intros Hnb Hlt. unfold Daily.createDailyTask.
  destruct (truthy (trim (Daily.newTaskTitle st))) eqn:E;
    [|apply truthy_trim_false in E; contradiction].
  cbn [negb].
  destruct (Nat.leb_spec 6 (length (Daily.dailyTasks st))) as [Hge|_]; [lia|].
  split.
  - intros [json ->]. destruct st.
    destruct refetch as [|[data|]|e]; simpl; repeat split; try done;
      try (by intros ? [= <-]); intros H; exfalso; by eapply H.
  - intros Hfail.
    destruct post as [|json|[[d|]|]]; simpl;
      try (exfalso; by eapply Hfail);
      (split; [reflexivity|]); (split; [eexists; reflexivity|]);
      (split; [reflexivity|]); intros d'; try discriminate.
    intros [= ->] ->. reflexivity.
Qed.

(** X23. Deleting asks first: [deleteDailyTask] sends nothing and changes
    nothing, and offers [Cancel], which runs nothing, and [Delete]. Only
    the latter's handler sends the DELETE; when that is refused or
    rejects, nothing changes and an alert says so; when it succeeds the
    list is reloaded and no alert is shown, even if the reload fails. *)
Theorem deleteDailyTask_asks (taskId taskTitle : jsstring) (st : Daily.State)
    (del : Reply unit unit) (refetch : Reply (list Daily.DailyTask) unit) :
  (exists message,
      Daily.deleteDailyTask taskId taskTitle st
        = (st, [Daily.Alert (js "Delete Daily Task") message
                  [(js "Cancel", None);
                   (js "Delete", Some (Daily.ConfirmDelete taskId))]]))
  /\ Daily.requests (Daily.deleteDailyTask taskId taskTitle st) = []
  /\ let r := Daily.press BACKEND_URL (Daily.ConfirmDelete taskId) st del refetch in
     (exists more,
         Daily.requests r
           = {| Daily.url := BACKEND_URL ++ js "/api/daily-tasks/" ++ taskId;
                Daily.method := js "DELETE"; Daily.body := Daily.NoBody |}
             :: more)
     /\ ((forall json, del <> Succeeded json) ->
         r.1 = st /\ length (Daily.requests r) = 1%nat
         /\ Daily.alerts r = [(js "Error", js "Failed to delete daily task")])
     /\ ((exists json, del = Succeeded json) ->
         r = (let '(st', fx) := Daily.fetchDailyTasks BACKEND_URL st refetch in
              (st', Daily.Fetch
                      {| Daily.url := BACKEND_URL ++ js "/api/daily-tasks/" ++ taskId;
                         Daily.method := js "DELETE"; Daily.body := Daily.NoBody |}
                    :: fx ++ [Daily.HapticSuccess]))
         /\ Daily.alerts r = []).
Proof.
  split; [eexists; reflexivity|]. split; [reflexivity|].
  simpl. unfold Daily.confirmDelete. split; [|split].
  - destruct del as [|json|json]; simpl;
      try destruct (Daily.fetchDailyTasks _ _ _) as [st' fx];
      eexists; reflexivity.
  - intros Hfail. destruct del as [|json|json]; simpl;
      try (exfalso; by eapply Hfail); by repeat split.
  - intros [json ->]. split; [reflexivity|].
    by destruct refetch as [|[data|]|e].
Qed.

(** X24. Completing a task leaves the list of tasks and the form alone and
    shows exactly one alert. Whenever the answer is ok and its body can be
    read, the completions are reloaded, a second request, before anything
    is shown: the completions, and with them the tasks shown as done, are
    those of the reload, and stay as they were when the reload fails. With
    [coins_earned] readable in the body the completion is celebrated,
    whatever the reload came to; with [null] for a body the reload has
    happened all the same, and then the alert is the [Error] of the
    [catch], without the haptic. In every other case nothing changes, one
    request is sent and the alert is headed [Error]. *)
Theorem completeDailyTask_frame (taskId taskTitle : jsstring) (st : Daily.State)
    (post : Reply Daily.CompletionBody (option jsstring))
    (refetch : Reply Daily.TodayCompletions unit) :
  let r := Daily.completeDailyTask BACKEND_URL taskId taskTitle st post refetch in
  r.1 = Daily.setTodayCompletions (Daily.todayCompletions r.1) st
  /\ length (Daily.alerts r) = 1%nat
  /\ (forall body,
        post = Succeeded (Some body) ->
        r.1 = (Daily.fetchTodayCompletions BACKEND_URL st refetch).1
        /\ length (Daily.requests r) = 2%nat
        /\ (forall data,
              refetch = Succeeded (Some data) ->
              Daily.todayCompletions r.1 = data
              /\ forall t, Daily.isTaskCompletedToday r.1 t
                           = bool_decide (t ∈ Daily.completed_task_ids data))
        /\ ((forall data, refetch <> Succeeded (Some data)) -> r.1 = st))
  /\ (forall coins,
        post = Succeeded (Some (Daily.Data coins)) ->
        exists message,
          Daily.alerts r
            = [(js "Task Completed! " ++ [55356; 57225]%N, message)])
  /\ (post = Succeeded (Some Daily.NullData) ->
       Daily.alerts r
         = [(js "Error", js "Failed to complete task. Please try again.")]
       /\ Forall (fun e => e <> Daily.HapticSuccess) r.2)
  /\ ((forall body, post <> Succeeded (Some body)) ->
       r.1 = st
       /\ length (Daily.requests r) = 1%nat
       /\ exists message, Daily.alerts r = [(js "Error", message)]).
Proof.
  cbv zeta. split; [|split; [|split; [|split; [|split]]]].
  - destruct st.
    by destruct post as [|[[|coins]|]|[detail|]], refetch as [|[data|]|e].
  - by destruct post as [|[[|coins]|]|[detail|]], refetch as [|[data|]|e].
  - intros body ->. split; [|split; [|split]].
    + by destruct body, refetch as [|[data|]|e].
    + by destruct body, refetch as [|[data|]|e].
    + intros data ->. by destruct body.
    + intros Hfail.
      destruct body, refetch as [|[data|]|e]; simpl;
        try (exfalso; by eapply Hfail); done.
  - intros coins ->. destruct refetch as [|[data|]|e]; simpl; by eexists.
  - intros ->. split.
    + by destruct refetch as [|[data|]|e].
    + destruct refetch as [|[data|]|e]; simpl; by repeat constructor.
  - intros Hfail.
    destruct post as [|[body|]|[detail|]]; simpl;
      try (exfalso; by eapply Hfail);
      (split; [done|]); (split; [done|]); by eexists.
Qed.

End DailyFacts.

(** X25. The two [formatDuration] of the file agree on every duration but zero,
    where the daily tasks show nothing, as they do for an absent
    duration. *)
Theorem formatDuration_agree (minutes : Z) :
  Daily.formatDuration None = []
  /\ Daily.formatDuration (Some 0) = []
  /\ (minutes <> 0 ->
      Daily.formatDuration (Some minutes) = Screen.formatDuration minutes
      /\ Daily.formatDuration (Some minutes) <> []).
Proof.
  split; [done|]. split; [done|]. intros Hm.
  unfold Daily.formatDuration, Screen.formatDuration.
  destruct (Z.eqb_spec minutes 0); [done|]. split; [done|].
  destruct (0 <? minutes / 60); intros H;
    apply (f_equal (@length N)) in H; rewrite !length_app in H; simpl in H; lia.
Qed.

(** * The sample notifications *)

Section NoticesFacts.

Variable BACKEND_URL : jsstring.
Variable toISOString : Z -> jsstring.

(** X26. [createSampleNotifications] looks at no response: it reports success
    exactly when none of its three POSTs rejects, and then reloads the
    list. When the POST at position [i] rejects, the samples before it
    have been posted and stay so, the later ones are not sent, the list is
    not reloaded and the state is as before. One alert is shown in every
    case. *)
Theorem createSampleNotifications_outcome (clock : nat -> Z)
    (st : Notices.State) (rejects : nat -> bool)
    (refetch : Reply (list Notices.Notification) unit) :
  let r := Notices.createSampleNotifications BACKEND_URL toISOString clock st
             rejects refetch in
  length (Notices.shown r.2) = 1%nat
  /\ ((forall i, (i < 3)%nat -> rejects i = false) ->
      Notices.posts r.2 = Notices.sampleNotifications toISOString clock
      /\ Notices.shown r.2 = [(js "Success", js "Sample notifications created!")]
      /\ r.1 = (Notices.fetchNotifications BACKEND_URL st refetch).1)
  /\ (forall i, (i < 3)%nat -> rejects i = true ->
      (forall j, (j < i)%nat -> rejects j = false) ->
      Notices.posts r.2
        = take (S i) (Notices.sampleNotifications toISOString clock)
      /\ Notices.shown r.2 = [(js "Error", js "Failed to create notifications")]
      /\ r.1 = st
      /\ Forall (fun e => forall u, e <> Notices.Get u) r.2).
Proof.
  unfold Notices.createSampleNotifications. simpl.
  destruct (rejects 0%nat) eqn:R0; [|destruct (rejects 1%nat) eqn:R1;
    [|destruct (rejects 2%nat) eqn:R2]]; simpl.
  - split; [done|]. split.
    + intros H. rewrite (H 0%nat) in R0 by lia. discriminate.
    + intros [|i] Hi Hr Hbefore.
      * repeat split; try done. repeat constructor; discriminate.
      * rewrite (Hbefore 0%nat) in R0 by lia. discriminate.
  - split; [done|]. split.
    + intros H. rewrite (H 1%nat) in R1 by lia. discriminate.
    + intros [|[|i]] Hi Hr Hbefore.
      * congruence.
      * repeat split; try done. repeat constructor; discriminate.
      * rewrite (Hbefore 1%nat) in R1 by lia. discriminate.
  - split; [done|]. split.
    + intros H. rewrite (H 2%nat) in R2 by lia. discriminate.
    + intros [|[|[|i]]] Hi Hr Hbefore; try congruence; try lia.
      repeat split; try done. repeat constructor; discriminate.
  - destruct refetch as [|[data|]|e]; simpl;
      (split; [done|]); (split; [by repeat split|]);
      intros [|[|[|i]]] Hi Hr; try congruence; lia.
Qed.

End NoticesFacts.

(** * Instances for the rest of the screen *)

Lemma formatDuration_parts_witness :
  0 <= 135 <= MAX_SAFE_INTEGER
  /\ (135 < 60 -> Screen.formatDuration 135 = numberToString 135 ++ js "m")
  /\ (60 <= 135 ->
      exists h m,
        1 <= h /\ 0 <= m < 60 /\ 135 = 60 * h + m
        /\ Screen.formatDuration 135
           = numberToString h ++ js "h " ++ numberToString m ++ js "m").
Proof.
  split; [unfold MAX_SAFE_INTEGER; lia|].
  apply (formatDuration_parts 135). unfold MAX_SAFE_INTEGER. lia.
Defined.

Lemma formatDuration_inj_witness :
  0 <= 90 <= MAX_SAFE_INTEGER /\ 0 <= 60 + 30 <= MAX_SAFE_INTEGER
  /\ Screen.formatDuration 90 = Screen.formatDuration (60 + 30)
  /\ 90 = 60 + 30.
Proof.
  split; [unfold MAX_SAFE_INTEGER; lia|].
  split; [unfold MAX_SAFE_INTEGER; lia|]. split; [reflexivity|].
  apply (formatDuration_inj 90 (60 + 30));
    [unfold MAX_SAFE_INTEGER; lia | unfold MAX_SAFE_INTEGER; lia | reflexivity].
Defined.

Lemma formatDuration_negative_witness :
  -90 < 0
  /\ Screen.formatDuration (-90) = numberToString (Z.rem (-90) 60) ++ js "m"
  /\ -60 < Z.rem (-90) 60 <= 0
  /\ Screen.formatDuration (-90 - 60) = Screen.formatDuration (-90).
Proof.
  split; [lia|]. apply (formatDuration_negative (-90)). lia.
Defined.

Lemma theme_save_failure_witness :
  lightStorage !! js "theme" = Some (if false then js "dark" else js "light")
  /\ let '(mode, stored, logged) := Theme.toggleTheme false lightStorage true in
     mode = negb false
     /\ stored = lightStorage
     /\ logged = [Client.ConsoleError (js "Error saving theme:")]
     /\ Theme.launch stored false = false.
Proof.
  split; [reflexivity|].
  apply (theme_save_failure false lightStorage). reflexivity.
Defined.

Lemma analyzeTask_failure_witness :
  ~ whitespace_only (Client.mainTask blogForm)
  /\ (forall data,
        @Client.NetworkError (Client.TaskCrusherResponse Client.WireSubtask)
          <> Client.HttpResponse true (Some data))
  /\ let '(st', fx, c) :=
       Client.run (Client.analyzeTask localhost notANumber blogForm)
                  Client.NetworkError in
     st' = Client.setIsAnalyzing false blogForm
     /\ (exists message, alerts fx = [(js "Error", message)])
     /\ (Client.HapticSuccess ∉ fx)
     /\ candidates st' = candidates blogForm
     /\ Client.showAnalysisModal st' = Client.showAnalysisModal blogForm.
Proof.
  split; [exact blogForm_not_blank|]. split; [discriminate|].
  apply (analyzeTask_failure localhost notANumber blogForm Client.NetworkError
           blogForm_not_blank).
  discriminate.
Defined.

Lemma blogSuggestions_at_2 :
  blogSuggestions !! 2%nat
    = Some (Client.enhance
              (wire "Design the layout" 120 3 2 [js "Choose a platform"] (Some true))).
Proof. reflexivity. Defined.

Lemma toggle_twice_witness :
  candidates blogState = Some blogSuggestions
  /\ blogSuggestions !! 2%nat
       = Some (Client.enhance
                 (wire "Design the layout" 120 3 2 [js "Choose a platform"] (Some true)))
  /\ toggles [2; 2]%nat blogState = blogState.
Proof.
  split; [exact blogState_candidates|]. split; [exact blogSuggestions_at_2|].
  exact (toggle_twice blogState blogSuggestions 2%nat _
           blogState_candidates blogSuggestions_at_2).
Defined.

Lemma toggles_commute_witness :
  wf blogState
  /\ candidates blogState = Some blogSuggestions
  /\ (1 < length blogSuggestions)%nat /\ (3 < length blogSuggestions)%nat
  /\ toggles [1; 3]%nat blogState = toggles [3; 1]%nat blogState.
Proof.
  assert (H1 : (1 < length blogSuggestions)%nat) by (simpl; lia).
  assert (H3 : (3 < length blogSuggestions)%nat) by (simpl; lia).
  split; [exact blogState_wf|]. split; [exact blogState_candidates|].
  split; [exact H1|]. split; [exact H3|].
  exact (toggles_commute blogState blogSuggestions 1%nat 3%nat
           blogState_wf blogState_candidates H1 H3).
Defined.

Lemma toggle_moves_count_by_one_witness :
  wf blogState
  /\ candidates blogState = Some blogSuggestions
  /\ blogSuggestions !! 2%nat
       = Some (Client.enhance
                 (wire "Design the layout" 120 3 2 [js "Choose a platform"] (Some true)))
  /\ Screen.createButtonCount blogState = Some (length (chosen blogSuggestions))
  /\ Screen.createButtonCount
       (Client.toggleSubtaskSelection (Z.of_nat 2) blogState).1.1
     = Some (if Client.selected
                  (Client.enhance
                     (wire "Design the layout" 120 3 2
                           [js "Choose a platform"] (Some true)))
             then (length (chosen blogSuggestions) - 1)%nat
             else (length (chosen blogSuggestions) + 1)%nat)
  /\ (Client.selected
        (Client.enhance
           (wire "Design the layout" 120 3 2 [js "Choose a platform"] (Some true)))
      = true -> (1 <= length (chosen blogSuggestions))%nat)
  /\ Screen.summary (Client.toggleSubtaskSelection (Z.of_nat 2) blogState).1.1
     = Screen.summary blogState.
Proof.
  split; [exact blogState_wf|]. split; [exact blogState_candidates|].
  split; [exact blogSuggestions_at_2|].
  exact (toggle_moves_count_by_one blogState blogSuggestions 2%nat _
           blogState_wf blogState_candidates blogSuggestions_at_2).
Defined.

Lemma createTaskGroup_body_witness :
  candidates blogEdited = Some (toggled 2 blogSuggestions)
  /\ chosen (toggled 2 blogSuggestions) <> []
  /\ exists r b,
       Client.crusherResponse blogEdited = Some r
       /\ Client.requests
            (Client.run (Client.createTaskGroup localhost blogEdited)
                        Client.NetworkError)
          = [{| Client.url := localhost ++ js "/api/task-crusher/create-group";
                Client.method := js "POST";
                Client.body := Client.CreateGroupBody b |}]
       /\ Client.suggested_subtasks b = chosen (toggled 2 blogSuggestions)
       /\ Forall (fun o => Client.selected o = true) (Client.suggested_subtasks b)
       /\ sublist (Client.suggested_subtasks b) (toggled 2 blogSuggestions)
       /\ Screen.createButtonCount blogEdited
          = Some (length (Client.suggested_subtasks b))
       /\ (Client.main_task b, Client.total_estimated_duration b,
           Client.completion_strategy b, Client.ai_confidence b)
          = (Client.main_task r, Client.total_estimated_duration r,
             Client.completion_strategy r, Client.ai_confidence r).
Proof.
  split; [exact blogEdited_candidates|]. split; [exact blogEdited_chosen|].
  exact (createTaskGroup_body localhost blogEdited _ Client.NetworkError
           blogEdited_candidates blogEdited_chosen).
Defined.

Lemma createButton_zero_iff_witness :
  candidates blogCleared = Some (Client.flip <$> blogSuggestions)
  /\ (Screen.createButtonCount blogCleared = Some 0%nat
      <-> Client.createTaskGroup localhost blogCleared
          = Client.Finished (blogCleared, [emptySelectionAlert], Client.Returned)).
Proof.
  split; [exact blogCleared_candidates|].
  exact (createButton_zero_iff localhost blogCleared _ blogCleared_candidates).
Defined.

Lemma dailyForm_titled : ~ whitespace_only (Daily.newTaskTitle dailyForm).
Proof. intros H. inversion H. discriminate. Defined.

Lemma dailyForm_room : (length (Daily.dailyTasks dailyForm) < 6)%nat.
Proof. simpl. lia. Defined.

Lemma createDailyTask_outcomes_witness :
  ~ whitespace_only (Daily.newTaskTitle dailyForm)
  /\ (length (Daily.dailyTasks dailyForm) < 6)%nat
  /\ let r := Daily.createDailyTask localhost notANumber dailyForm
                limitReply noReload in
     ((exists json, limitReply = Succeeded json) ->
      r.1 = Daily.setDailyTasks (Daily.dailyTasks r.1) (Daily.clearForm dailyForm)
      /\ (forall data, noReload = Succeeded (Some data) -> Daily.dailyTasks r.1 = data)
      /\ ((forall data, noReload <> Succeeded (Some data)) ->
          Daily.dailyTasks r.1 = Daily.dailyTasks dailyForm)
      /\ Daily.alerts r = [(js "Success", js "Daily task added successfully!")]
      /\ length (Daily.requests r) = 2%nat)
     /\ ((forall json, limitReply <> Succeeded json) ->
         r.1 = dailyForm
         /\ (exists message, Daily.alerts r = [(js "Error", message)])
         /\ length (Daily.requests r) = 1%nat
         /\ forall d,
              limitReply = Refused (Some (Some d)) ->
              truthy d = true ->
              Daily.alerts r = [(js "Error", d)]).
Proof.
  split; [exact dailyForm_titled|]. split; [exact dailyForm_room|].
  exact (createDailyTask_outcomes localhost notANumber dailyForm
           limitReply noReload
           dailyForm_titled dailyForm_room).
Defined.

(** An ok answer whose body is [null]: the completions are reloaded, and
    only then does the handler fail. An ok answer without [coins_earned]
    is celebrated with [undefined] for the coins. *)
Example completeDailyTask_null_body :
  let data := {| Daily.completed_today := 1;
                 Daily.completed_task_ids := [js "t1"];
                 Daily.total_coins_earned := 1 |} in
  let r := Daily.completeDailyTask localhost (js "t1") (js "Stretch") dailyForm
             (Succeeded (Some Daily.NullData)) (Succeeded (Some data)) in
  let r' := Daily.completeDailyTask localhost (js "t1") (js "Stretch") dailyForm
              (Succeeded (Some (Daily.Data Daily.Absent))) Rejected in
  Daily.todayCompletions r.1 = data
  /\ length (Daily.requests r) = 2%nat
  /\ Daily.alerts r
     = [(js "Error", js "Failed to complete task. Please try again.")]
  /\ Daily.alerts r'
     = [(js "Task Completed! " ++ [55356; 57225]%N,
         js "Great job completing " ++ [34%N] ++ js "Stretch" ++ [34%N]
           ++ js "!" ++ [10; 10]%N ++ js "You earned undefined coin!")].
Proof. vm_compute. repeat split; reflexivity. Qed.
